(** * Effect handlers of the editor store (editor/store/effects.js)

    A shallow embedding of the side-effect handlers of the editor store.
    A handler receives the dispatched action and the store; it reads the
    state through selectors, dispatches further actions, may issue one
    request to the REST API and may hand an action back to the middleware.

    The selectors (./selectors), the action creators (./actions) and the
    block library (@wordpress/blocks) are imported by the file and are
    taken here as parameters: selectors and services are fields of two
    classes, a call of an action creator is a constructor of [Action]
    that keeps the arguments of the call. *)

From stdpp Require Import gmap strings list pretty.

Set Warnings "-register-all".
Open Scope string_scope.

(** ** JavaScript values and objects *)

(** The primitive values the handlers handle; [VRef] is a reference to
    some other object (a nested object or an array), known by its address
    only. *)
Inductive JsVal :=
| VUndef
| VNull
| VBool (b : bool)
| VNum (n : Z)
| VStr (s : string)
| VRef (addr : nat).

#[global] Instance JsVal_eq_dec : EqDecision JsVal.
Proof. solve_decision. Defined.

(** [if ( v )], [!! v], [v && ...] *)
Definition truthy (v : JsVal) : bool :=
  match v with
  | VUndef | VNull => false
  | VBool b => b
  | VNum n => negb (n =? 0)%Z
  | VStr s => negb (String.eqb s "")
  | VRef _ => true
  end.

(** [a === b] (and lodash's SameValueZero, which differs on NaN only) *)
Definition strict_eq (a b : JsVal) : bool := bool_decide (a = b).

(** [`${ v }`] *)
Definition to_string (v : JsVal) : string :=
  match v with
  | VUndef => "undefined"
  | VNull => "null"
  | VBool true => "true"
  | VBool false => "false"
  | VNum n => pretty n
  | VStr s => s
  | VRef _ => "[object Object]"
  end.

(** A plain object: a finite map from property names to values. *)
Abbreviation Obj := (gmap string JsVal).

(** [o.k]: a property that is absent reads as [undefined]. *)
Definition prop (o : Obj) (k : string) : JsVal := default VUndef (o !! k).

(** lodash [pick( o, ks )] *)
Definition pick (o : Obj) (ks : list string) : Obj :=
  filter (λ kv, kv.1 ∈ ks) o.

(** [{ ...a, ...b }]: the properties of [b] win. *)
Definition spread (a b : Obj) : Obj := b ∪ a.

(** [includes( xs, v )] and [xs.indexOf( v ) !== -1] *)
Definition includes (xs : list JsVal) (v : JsVal) : bool :=
  existsb (strict_eq v) xs.

(** What the REST API resolves a request with: one resource or a
    collection of resources. *)
Inductive Response :=
| ROne (o : Obj)
| RMany (l : list Obj).

(** [r.k] on a resolved value; an array has none of the properties that
    the handlers read. *)
Definition rprop (r : Response) (k : string) : JsVal :=
  match r with
  | ROne o => prop o k
  | RMany _ => VUndef
  end.

(** lodash [castArray] *)
Definition castArray (r : Response) : list Obj :=
  match r with
  | ROne o => [o]
  | RMany l => l
  end.

(** ** Blocks, elements and actions *)

Inductive Block := mkBlock {
  clientId : string;
  name : string;
  attributes : Obj;
  innerBlocks : list Block }.

(** [{ ...block, attributes: attrs }] *)
Definition with_attributes (block : Block) (attrs : Obj) : Block :=
  mkBlock (clientId block) (name block) attrs (innerBlocks block).

Record ReusableBlock := mkReusableBlock {
  rb_clientId : string;
  rb_title : JsVal;
  rb_isTemporary : bool }.

Record BlockType := mkBlockType {
  merge : option (Obj → Obj → Obj) }.

(** The JSX of the notices: an element is a JavaScript value or a tag
    with properties and children. *)
Inductive Element :=
| EVal (v : JsVal)
| ETag (tag : string) (props : list (string * JsVal)) (children : list Element).

(** redux-optimist *)
Inductive Phase := BEGIN | COMMIT | REVERT.

Record Optimist := mkOptimist {
  otype : option Phase;
  oid : string }.

Record NoticeOptions := mkNoticeOptions {
  notice_id : string;
  spokenMessage : option JsVal }.

Record Request := mkRequest {
  path : string;
  method : option string;
  data : option Obj }.

(** The actions. The constructors [Act_T] are the object literals of type
    ['T'] that the file writes or receives; the others are calls of the
    action creators of ./actions, with the arguments of the call. *)
Inductive Action :=
| Act_REQUEST_POST_UPDATE (options : Obj)
| Act_REQUEST_POST_UPDATE_START (optimist : Optimist) (isAutosave : bool)
| Act_REQUEST_POST_UPDATE_SUCCESS (previousPost : Obj) (post : Response)
    (optimist : Optimist) (isAutosave : bool)
| Act_REQUEST_POST_UPDATE_FAILURE (optimist : Optimist) (post edits : Obj)
    (error : option Obj)
| Act_DIRTY_ARTIFICIALLY
| Act_TRASH_POST (postId : JsVal)
| Act_TRASH_POST_FAILURE (postId : JsVal) (error : option Obj)
| Act_MERGE_BLOCKS (firstBlockClientId secondBlockClientId : string)
| Act_FETCH_REUSABLE_BLOCKS (id : JsVal)
| Act_FETCH_REUSABLE_BLOCKS_SUCCESS (id : JsVal)
| Act_FETCH_REUSABLE_BLOCKS_FAILURE (id : JsVal) (error : option Obj)
| Act_SAVE_REUSABLE_BLOCK (id : JsVal)
| Act_SAVE_REUSABLE_BLOCK_SUCCESS (updatedId id : JsVal)
| Act_SAVE_REUSABLE_BLOCK_FAILURE (id : JsVal)
| Act_DELETE_REUSABLE_BLOCK (id : JsVal)
| Act_REMOVE_REUSABLE_BLOCK (id : JsVal) (optimist : Optimist)
| Act_DELETE_REUSABLE_BLOCK_SUCCESS (id : JsVal) (optimist : Optimist)
| Act_DELETE_REUSABLE_BLOCK_FAILURE (id : JsVal) (optimist : Optimist)
| Act_CLEAR_SELECTED_BLOCK
| Act_SELECT_BLOCK (selected : string)
| Act_MULTI_SELECT (from to : string)
| updatePost (edits : Obj) (optimist : option Optimist)
| resetPost (post : Response)
| resetAutosave (post : Response)
| removeNotice (id : string)
| createSuccessNotice (content : Element) (options : NoticeOptions)
| createErrorNotice (content : Element) (options : NoticeOptions)
| selectBlock (selected : string) (initialPosition : option Z)
| replaceBlocks (clientIds : list string) (blocks : list Block)
| removeBlocks (clientIds : list string)
| removeBlock (removed : string) (selectPrevious : bool)
| receiveReusableBlocks (results : list (Obj * option Block)).

(** ** The effect monad

    A handler runs against the store: it appends to the log of dispatched
    actions, draws identifiers from lodash's [uniqueId] counter, and may
    throw (a [TypeError] on reading a property of [undefined]), which
    ends it with the dispatches made so far. *)

Record Run (A : Type) := mkRun {
  dispatched : list Action;
  idCounter : nat;
  value : option A }.
Arguments mkRun {A} _ _ _.
Arguments dispatched {A} _.
Arguments idCounter {A} _.
Arguments value {A} _.

Definition Eff (A : Type) : Type := nat → Run A.

Definition ret {A} (x : A) : Eff A := λ c, mkRun [] c (Some x).

Definition bind {A B} (m : Eff A) (f : A → Eff B) : Eff B := λ c,
  let r := m c in
  match value r with
  | None => mkRun (dispatched r) (idCounter r) None
  | Some x =>
      let r' := f x (idCounter r) in
      mkRun (dispatched r ++ dispatched r') (idCounter r') (value r')
  end.

Definition dispatch (a : Action) : Eff unit := λ c, mkRun [a] c (Some tt).

Definition throw {A} : Eff A := λ c, mkRun [] c None.

(** lodash [uniqueId( prefix )]: [prefix + ( ++idCounter )] *)
Definition uniqueId (prefix : string) : Eff string := λ c,
  mkRun [] (S c) (Some (prefix ++ pretty (S c))).

(** [const x = o] where [o] may be [undefined] and is read from at once. *)
Definition defined {A} (o : option A) : Eff A :=
  match o with
  | Some x => ret x
  | None => throw
  end.

Notation "'let*' x ':=' m 'in' k" := (bind m (λ x, k))
  (at level 10, x name, m at level 100, k at level 200).
Notation "m ';;' k" := (bind m (λ _, k))
  (at level 100, k at level 200, right associativity).

(** [listen m] runs [m] and also hands back what it has dispatched. *)
Definition listen {A} (m : Eff A) : Eff (A * list Action) := λ c,
  let r := m c in
  mkRun (dispatched r) (idCounter r) ((λ x, (x, dispatched r)) <$> value r).

(** ** What the file imports *)

(** The selectors of ./selectors that the handlers call, and the
    transaction identifier that module exports. *)
Class Selectors (State : Type) := {
  getCurrentPost : State → Obj;
  getCurrentPostType : State → JsVal;
  getEditedPostContent : State → JsVal;
  getPostEdits : State → Obj;
  isEditedPostAutosaveable : State → bool;
  isEditedPostSaveable : State → bool;
  isEditedPostNew : State → bool;
  getAutosave : State → option Obj;
  getBlock : State → string → option Block;
  getBlocks : State → list Block;
  getReusableBlock : State → JsVal → option ReusableBlock;
  getProvisionalBlockClientId : State → option string;
  isBlockSelected : State → string → bool;
  POST_UPDATE_TRANSACTION_ID : string }.

(** The localisation function, the route table of the REST client and the
    block library. *)
Class Services := {
  __ : string → string;
  getPostTypeRoute : JsVal → JsVal;
  getBlockType : string → option BlockType;
  switchToBlockType : Block → string → option (list Block);
  isReusableBlock : Block → bool;
  createBlock : string → Obj → list Block → Block;
  serialize : Block → string;
  parse : JsVal → list Block }.

(** ** Module constants *)

Definition SAVE_POST_NOTICE_ID := "SAVE_POST_NOTICE_ID".
Definition AUTOSAVE_POST_NOTICE_ID := "AUTOSAVE_POST_NOTICE_ID".
Definition TRASH_POST_NOTICE_ID := "TRASH_POST_NOTICE_ID".
Definition REUSABLE_BLOCK_NOTICE_ID := "REUSABLE_BLOCK_NOTICE_ID".

(** [o[ k ]] on an object literal: the key is converted to a string. *)
Definition index (o : Obj) (k : JsVal) : JsVal := prop o (to_string k).

(** A client id that is [null] or the empty string is falsy. *)
Definition truthy_id (o : option string) : bool :=
  match o with
  | Some s => truthy (VStr s)
  | None => false
  end.

Section Handlers.
Context {State : Type} `{Selectors State} `{Services}.

(** [apiFetch( request ).then( on_fulfilled ).catch( on_rejected )]: the
    callbacks run later, against the state the store then has. The value
    a request is rejected with may be [undefined]. *)
Record Promise := mkPromise {
  request : Request;
  on_fulfilled : Response → State → Eff unit;
  on_rejected : option Obj → State → Eff unit }.

(** What a handler leaves behind besides its dispatches: the actions it
    returns to the middleware and the request it has issued. *)
Record Outcome := mkOutcome {
  returned : list Action;
  promise : option Promise }.

Definition nothing : Outcome := mkOutcome [] None.
Definition returns (a : Action) : Outcome := mkOutcome [a] None.
Definition apiFetch (req : Request)
    (fulfilled : Response → State → Eff unit)
    (rejected : option Obj → State → Eff unit) : Outcome :=
  mkOutcome [] (Some (mkPromise req fulfilled rejected)).

(** [if ( b ) { m }] *)
Definition when (b : bool) (m : Eff unit) : Eff unit :=
  if b then m else ret tt.

(** *** removeProvisionalBlock *)

Definition removeProvisionalBlock (action : Action) (st : State) : Eff Outcome :=
  let provisionalBlockClientId := getProvisionalBlockClientId st in
  match provisionalBlockClientId with
  | Some p =>
      if truthy_id provisionalBlockClientId && negb (isBlockSelected st p)
      then ret (returns (removeBlock p false))
      else ret nothing
  | None => ret nothing
  end.

(** *** REQUEST_POST_UPDATE *)

Definition REQUEST_POST_UPDATE (options : Obj) (st : State) : Eff Outcome :=
  let post := getCurrentPost st in
  let isAutosave := truthy (prop options "autosave") in
  let isSaveable :=
    if isAutosave then isEditedPostAutosaveable else isEditedPostSaveable in
  if negb (isSaveable st) then ret nothing else
  let edits := getPostEdits st in
  let edits :=
    if isAutosave then pick edits ["title"; "content"; "excerpt"] else edits in
  let edits :=
    if isEditedPostNew st
    then spread {[ "status" := VStr "draft" ]} edits
    else edits in
  let toSend :=
    <[ "id" := prop post "id" ]>
      (<[ "content" := getEditedPostContent st ]> edits) in
  let basePath := getPostTypeRoute (getCurrentPostType st) in
  dispatch (Act_REQUEST_POST_UPDATE_START
              (mkOptimist (Some BEGIN) POST_UPDATE_TRANSACTION_ID) isAutosave) ;;
  dispatch (updatePost toSend
              (Some (mkOptimist None POST_UPDATE_TRANSACTION_ID))) ;;
  let fulfilled (newPost : Response) (_ : State) : Eff unit :=
    let reset := if isAutosave then resetAutosave else resetPost in
    dispatch (reset newPost) ;;
    let isRevision := negb (strict_eq (rprop newPost "id") (prop post "id")) in
    dispatch (Act_REQUEST_POST_UPDATE_SUCCESS post newPost
                (mkOptimist (Some (if isRevision then REVERT else COMMIT))
                   POST_UPDATE_TRANSACTION_ID)
                isAutosave) in
  let rejected (error : option Obj) (_ : State) : Eff unit :=
    dispatch (Act_REQUEST_POST_UPDATE_FAILURE
                (mkOptimist (Some REVERT) POST_UPDATE_TRANSACTION_ID)
                post edits error) in
  if isAutosave then
    let toSend :=
      <[ "parent" := prop post "id" ]>
        (spread (spread (pick post ["title"; "content"; "excerpt"])
                        (default ∅ (getAutosave st)))
                toSend) in
    ret (apiFetch
           (mkRequest ("/wp/v2/" ++ to_string basePath ++ "/"
                         ++ to_string (prop post "id") ++ "/autosaves")
              (Some "POST") (Some toSend))
           fulfilled rejected)
  else
    dispatch (removeNotice SAVE_POST_NOTICE_ID) ;;
    dispatch (removeNotice AUTOSAVE_POST_NOTICE_ID) ;;
    ret (apiFetch
           (mkRequest ("/wp/v2/" ++ to_string basePath ++ "/"
                         ++ to_string (prop post "id"))
              (Some "PUT") (Some toSend))
           fulfilled rejected).

(** *** REQUEST_POST_UPDATE_SUCCESS *)

Definition REQUEST_POST_UPDATE_SUCCESS (previousPost : Obj) (post : Response)
    (isAutosave : bool) (st : State) : Eff Outcome :=
  when (negb (size (getPostEdits st) =? 0)%nat) (dispatch Act_DIRTY_ARTIFICIALLY) ;;
  if isAutosave then ret nothing else
  let publishStatus := [VStr "publish"; VStr "private"; VStr "future"] in
  let isPublished := includes publishStatus (prop previousPost "status") in
  let willPublish := includes publishStatus (rprop post "status") in
  let '(noticeMessage, shouldShowLink) :=
    if negb isPublished && negb willPublish then
      (VNull, true)
    else if isPublished && negb willPublish then
      (VStr (__ "Post reverted to draft."), false)
    else if negb isPublished && willPublish then
      (index (list_to_map
                [("publish", VStr (__ "Post published!"));
                 ("private", VStr (__ "Post published privately!"));
                 ("future", VStr (__ "Post scheduled!"))])
             (rprop post "status"),
       true)
    else
      (VStr (__ "Post updated!"), true) in
  when (truthy noticeMessage)
    (dispatch (createSuccessNotice
       (ETag "p" []
          [EVal noticeMessage;
           EVal (VStr " ");
           if shouldShowLink
           then ETag "a" [("href", rprop post "link")]
                  [EVal (VStr (__ "View post"))]
           else EVal (VBool false)])
       (mkNoticeOptions SAVE_POST_NOTICE_ID (Some noticeMessage)))) ;;
  ret nothing.

(** *** REQUEST_POST_UPDATE_FAILURE *)

Definition REQUEST_POST_UPDATE_FAILURE (post edits : Obj) (error : option Obj)
    (st : State) : Eff Outcome :=
  let noChanges :=
    match error with
    | Some e => strict_eq (VStr "rest_autosave_no_changes") (prop e "code")
    | None => false
    end in
  if noChanges then ret nothing else
  let publishStatus := [VStr "publish"; VStr "private"; VStr "future"] in
  let isPublished := includes publishStatus (prop post "status") in
  let messages : Obj :=
    list_to_map
      [("publish", VStr (__ "Publishing failed"));
       ("private", VStr (__ "Publishing failed"));
       ("future", VStr (__ "Scheduling failed"))] in
  let noticeMessage :=
    if negb isPublished && includes publishStatus (prop edits "status")
    then index messages (prop edits "status")
    else VStr (__ "Updating failed") in
  dispatch (createErrorNotice (EVal noticeMessage)
              (mkNoticeOptions SAVE_POST_NOTICE_ID None)) ;;
  ret nothing.

(** *** TRASH_POST and TRASH_POST_FAILURE *)

Definition TRASH_POST (postId : JsVal) (st : State) : Eff Outcome :=
  let basePath := getPostTypeRoute (getCurrentPostType st) in
  dispatch (removeNotice TRASH_POST_NOTICE_ID) ;;
  ret (apiFetch
         (mkRequest ("/wp/v2/" ++ to_string basePath ++ "/" ++ to_string postId)
            (Some "DELETE") None)
         (λ _ st',
            let post := getCurrentPost st' in
            dispatch (resetPost (ROne (<[ "status" := VStr "trash" ]> post))))
         (λ error _, dispatch (Act_TRASH_POST_FAILURE postId error))).

Definition TRASH_POST_FAILURE (error : option Obj) (st : State) : Eff Outcome :=
  let* error := defined error in
  let message :=
    if truthy (prop error "message")
       && negb (strict_eq (prop error "code") (VStr "unknown_error"))
    then prop error "message"
    else VStr (__ "Trashing failed") in
  dispatch (createErrorNotice (EVal message)
              (mkNoticeOptions TRASH_POST_NOTICE_ID None)) ;;
  ret nothing.

(** *** MERGE_BLOCKS *)

Definition MERGE_BLOCKS (firstBlockClientId secondBlockClientId : string)
    (st : State) : Eff Outcome :=
  let blockA := getBlock st firstBlockClientId in
  let blockB := getBlock st secondBlockClientId in
  let* blockA := defined blockA in
  let* blockType := defined (getBlockType (name blockA)) in
  match merge blockType with
  | None =>
      dispatch (selectBlock (clientId blockA) None) ;;
      ret nothing
  | Some mergeAttributes =>
      let* blockB := defined blockB in
      let blocksWithTheSameType :=
        if String.eqb (name blockA) (name blockB)
        then Some [blockB]
        else switchToBlockType blockB (name blockA) in
      match blocksWithTheSameType with
      | None | Some [] => ret nothing
      | Some (transformed :: others) =>
          let updatedAttributes :=
            mergeAttributes (attributes blockA) (attributes transformed) in
          dispatch (selectBlock (clientId blockA) (Some (-1)%Z)) ;;
          dispatch (replaceBlocks
                      [clientId blockA; clientId blockB]
                      (with_attributes blockA
                         (spread (attributes blockA) updatedAttributes)
                       :: others)) ;;
          ret nothing
      end
  end.

(** *** Reusable blocks *)

Definition FETCH_REUSABLE_BLOCKS (id : JsVal) (st : State) : Eff Outcome :=
  let basePath := getPostTypeRoute (VStr "wp_block") in
  if negb (truthy basePath) then ret nothing else
  let result :=
    if truthy id
    then mkRequest ("/wp/v2/" ++ to_string basePath ++ "/" ++ to_string id)
           None None
    else mkRequest ("/wp/v2/" ++ to_string basePath ++ "?per_page=-1")
           None None in
  ret (apiFetch result
         (λ reusableBlockOrBlocks _,
            dispatch (receiveReusableBlocks
                        (map (λ reusableBlock,
                                (reusableBlock,
                                 head (parse (prop reusableBlock "content"))))
                             (castArray reusableBlockOrBlocks))) ;;
            dispatch (Act_FETCH_REUSABLE_BLOCKS_SUCCESS id))
         (λ error _, dispatch (Act_FETCH_REUSABLE_BLOCKS_FAILURE id error))).

Definition SAVE_REUSABLE_BLOCK (id : JsVal) (st : State) : Eff Outcome :=
  let basePath := getPostTypeRoute (VStr "wp_block") in
  if negb (truthy basePath) then ret nothing else
  let* reusableBlock := defined (getReusableBlock st id) in
  let isTemporary := rb_isTemporary reusableBlock in
  let title := rb_title reusableBlock in
  let* block := defined (getBlock st (rb_clientId reusableBlock)) in
  let content :=
    VStr (serialize (createBlock (name block) (attributes block)
                       (innerBlocks block))) in
  let data : Obj :=
    if isTemporary
    then list_to_map [("title", title); ("content", content)]
    else list_to_map [("id", id); ("title", title); ("content", content)] in
  let path :=
    if isTemporary
    then "/wp/v2/" ++ to_string basePath
    else "/wp/v2/" ++ to_string basePath ++ "/" ++ to_string id in
  let method := if isTemporary then "POST" else "PUT" in
  ret (apiFetch (mkRequest path (Some method) (Some data))
         (λ updatedReusableBlock _,
            dispatch (Act_SAVE_REUSABLE_BLOCK_SUCCESS
                        (rprop updatedReusableBlock "id") id) ;;
            let message :=
              if isTemporary then __ "Block created." else __ "Block updated." in
            dispatch (createSuccessNotice (EVal (VStr message))
                        (mkNoticeOptions REUSABLE_BLOCK_NOTICE_ID None)))
         (λ error _,
            dispatch (Act_SAVE_REUSABLE_BLOCK_FAILURE id) ;;
            let* error := defined error in
            dispatch (createErrorNotice (EVal (prop error "message"))
                        (mkNoticeOptions REUSABLE_BLOCK_NOTICE_ID
                           (Some (prop error "message")))))).

Definition DELETE_REUSABLE_BLOCK (id : JsVal) (st : State) : Eff Outcome :=
  let basePath := getPostTypeRoute (VStr "wp_block") in
  if negb (truthy basePath) then ret nothing else
  match getReusableBlock st id with
  | None => ret nothing
  | Some reusableBlock =>
      if rb_isTemporary reusableBlock then ret nothing else
      let allBlocks := getBlocks st in
      let associatedBlocks :=
        List.filter
          (λ block, isReusableBlock block
                    && strict_eq (prop (attributes block) "ref") id)
          allBlocks in
      let associatedBlockClientIds := map clientId associatedBlocks in
      let* transactionId := uniqueId "" in
      dispatch (Act_REMOVE_REUSABLE_BLOCK id
                  (mkOptimist (Some BEGIN) transactionId)) ;;
      dispatch (removeBlocks
                  (associatedBlockClientIds ++ [rb_clientId reusableBlock])) ;;
      ret (apiFetch
             (mkRequest ("/wp/v2/" ++ to_string basePath ++ "/" ++ to_string id)
                (Some "DELETE") None)
             (λ _ _,
                dispatch (Act_DELETE_REUSABLE_BLOCK_SUCCESS id
                            (mkOptimist (Some COMMIT) transactionId)) ;;
                let message := __ "Block deleted." in
                dispatch (createSuccessNotice (EVal (VStr message))
                            (mkNoticeOptions REUSABLE_BLOCK_NOTICE_ID None)))
             (λ error _,
                dispatch (Act_DELETE_REUSABLE_BLOCK_FAILURE id
                            (mkOptimist (Some REVERT) transactionId)) ;;
                let* error := defined error in
                dispatch (createErrorNotice (EVal (prop error "message"))
                            (mkNoticeOptions REUSABLE_BLOCK_NOTICE_ID
                               (Some (prop error "message"))))))
  end.

(** *** The table of handlers

    The default export maps the type of an action to its handler. Only
    the object literals have a type this file fixes; what type a call of
    an action creator carries is decided in ./actions. *)
Definition effects (action : Action) : option (State → Eff Outcome) :=
  match action with
  | Act_REQUEST_POST_UPDATE options =>
      Some (REQUEST_POST_UPDATE options)
  | Act_REQUEST_POST_UPDATE_SUCCESS previousPost post _ isAutosave =>
      Some (REQUEST_POST_UPDATE_SUCCESS previousPost post isAutosave)
  | Act_REQUEST_POST_UPDATE_FAILURE _ post edits error =>
      Some (REQUEST_POST_UPDATE_FAILURE post edits error)
  | Act_TRASH_POST postId => Some (TRASH_POST postId)
  | Act_TRASH_POST_FAILURE _ error => Some (TRASH_POST_FAILURE error)
  | Act_MERGE_BLOCKS first second => Some (MERGE_BLOCKS first second)
  | Act_FETCH_REUSABLE_BLOCKS id => Some (FETCH_REUSABLE_BLOCKS id)
  | Act_SAVE_REUSABLE_BLOCK id => Some (SAVE_REUSABLE_BLOCK id)
  | Act_DELETE_REUSABLE_BLOCK id => Some (DELETE_REUSABLE_BLOCK id)
  | Act_CLEAR_SELECTED_BLOCK => Some (removeProvisionalBlock action)
  | Act_SELECT_BLOCK _ => Some (removeProvisionalBlock action)
  | Act_MULTI_SELECT _ _ => Some (removeProvisionalBlock action)
  | _ => None
  end.

(** ** Running an intent to its end *)

(** How a request ends. *)
Inductive Settlement :=
| Fulfilled (r : Response)
| Rejected (error : option Obj).

Definition settle (p : Promise) (s : Settlement) (st : State) : Eff unit :=
  match s with
  | Fulfilled r => on_fulfilled p r st
  | Rejected error => on_rejected p error st
  end.

(** The middleware runs the handler of an action within its dispatch,
    against the state the store has once the action is reduced. The
    callbacks of this file dispatch an action that has a handler last, so
    the handlers may as well run when the callback is over:
    [react acts st] runs the handlers of the actions [acts] against [st]. *)
Fixpoint react (acts : list Action) (st : State) : Eff unit :=
  match acts with
  | [] => ret tt
  | a :: acts' =>
      match effects a with
      | Some handler => handler st ;; react acts' st
      | None => react acts' st
      end
  end.

(** An intent from its dispatch to the end of its request: the handler
    runs against [st0]; the request it has issued, if any, is settled by
    [s] against [st1]; the handlers of the actions the callback
    dispatches run against [st2]. The run logs every action dispatched
    on the way, in order. *)
Definition attempt (action : Action) (st0 : State) (s : Settlement)
    (st1 st2 : State) : Eff unit :=
  match effects action with
  | None => ret tt
  | Some handler =>
      let* outcome := handler st0 in
      match promise outcome with
      | None => ret tt
      | Some p =>
          let* heard := listen (settle p s st1) in
          react heard.2 st2
      end
  end.

End Handlers.

(** ** Notices in a log of dispatches *)

Definition is_success_notice (a : Action) : bool :=
  match a with
  | createSuccessNotice _ _ => true
  | _ => false
  end.

Definition is_error_notice (a : Action) : bool :=
  match a with
  | createErrorNotice _ _ => true
  | _ => false
  end.

Definition is_notice (a : Action) : bool :=
  is_success_notice a || is_error_notice a.

Definition notices (log : list Action) : list Action :=
  List.filter is_notice log.

Definition silent (log : list Action) : bool :=
  forallb (λ a, negb (is_notice a)) log.

(** The membership of a status in the family that counts as published. *)
Definition published_family (status : JsVal) : Prop :=
  status = VStr "publish" ∨ status = VStr "private" ∨ status = VStr "future".

(** The payload of the request a handler has issued. *)
Definition payload {State : Type} (r : Run (@Outcome State)) : option Obj :=
  outcome ← value r; p ← promise outcome; data (request p).

(** The payload of the optimistic update among the dispatches. *)
Fixpoint optimistic_payload (log : list Action) : option Obj :=
  match log with
  | [] => None
  | updatePost edits _ :: _ => Some edits
  | _ :: log' => optimistic_payload log'
  end.

(** ** Vocabulary of the statements *)

Section Vocabulary.
Context {State : Type} `{Selectors State} `{Services}.

(** A handler that stops at once: nothing dispatched, no identifier
    drawn, nothing returned, no request issued. *)
Definition idle (c : nat) : Run (@Outcome State) := mkRun [] c (Some nothing).

(** The intents that change the selection. *)
Inductive selection_intent : Action → Prop :=
| intent_cleared : selection_intent Act_CLEAR_SELECTED_BLOCK
| intent_selected id : selection_intent (Act_SELECT_BLOCK id)
| intent_multi from to : selection_intent (Act_MULTI_SELECT from to).

(** The blocks of the first block's type that stand for the second one:
    the second block itself when the names agree, its transformation
    otherwise. *)
Definition same_type_as (blockA blockB : Block) : option (list Block) :=
  if String.eqb (name blockA) (name blockB)
  then Some [blockB]
  else switchToBlockType blockB (name blockA).

(** The gate of a save: the predicate of an autosave or of a full save. *)
Definition gate_open (options : Obj) (st : State) : bool :=
  if truthy (prop options "autosave")
  then isEditedPostAutosaveable st
  else isEditedPostSaveable st.

(** The request a run of a handler has issued. *)
Definition issued (r : Run (@Outcome State)) : option Promise :=
  outcome ← value r; promise outcome.

(** The error a request is rejected with carries the code of an autosave
    without changes. *)
Definition no_changes (error : option Obj) : Prop :=
  ∃ e, error = Some e ∧ prop e "code" = VStr "rest_autosave_no_changes".

(** The notice of a save that has gone through. *)
Definition saved_notice (message : string) (link : Element) : Action :=
  createSuccessNotice
    (ETag "p" [] [EVal (VStr (__ message)); EVal (VStr " "); link])
    (mkNoticeOptions SAVE_POST_NOTICE_ID (Some (VStr (__ message)))).

(** The link to the post. *)
Definition view_link (post : Response) : Element :=
  ETag "a" [("href", rprop post "link")] [EVal (VStr (__ "View post"))].

(** The place of the link when no link is shown. *)
Definition no_link : Element := EVal (VBool false).

End Vocabulary.

(** ** A small store to run the handlers on *)

Module Sample.

Record Store := mkStore {
  currentPost : Obj;
  postType : JsVal;
  editedContent : JsVal;
  postEdits : Obj;
  autosaveable : bool;
  saveable : bool;
  isNew : bool;
  autosave : option Obj;
  blocks : list Block;
  reusableBlocks : list (JsVal * ReusableBlock);
  provisional : option string;
  selection : option string }.

#[global] Instance selectors : Selectors Store := {
  getCurrentPost := currentPost;
  getCurrentPostType := postType;
  getEditedPostContent := editedContent;
  getPostEdits := postEdits;
  isEditedPostAutosaveable := autosaveable;
  isEditedPostSaveable := saveable;
  isEditedPostNew := isNew;
  getAutosave := autosave;
  getBlock st id := List.find (λ b, String.eqb (clientId b) id) (blocks st);
  getBlocks := blocks;
  getReusableBlock st id :=
    snd <$> List.find (λ e, strict_eq e.1 id) (reusableBlocks st);
  getProvisionalBlockClientId := provisional;
  isBlockSelected st id := bool_decide (selection st = Some id);
  POST_UPDATE_TRANSACTION_ID := "post-update" }.

(** Paragraphs merge by joining their content; images do not merge; a
    heading turns into one paragraph, nothing turns into anything else. *)
Definition joinContent (a b : Obj) : Obj :=
  {[ "content" := VStr (to_string (prop a "content")
                          ++ to_string (prop b "content")) ]}.

#[global] Instance services : Services := {
  __ := id;
  getPostTypeRoute t :=
    if strict_eq t (VStr "post") then VStr "posts"
    else if strict_eq t (VStr "wp_block") then VStr "blocks"
    else VUndef;
  getBlockType n :=
    if String.eqb n "core/paragraph" then Some (mkBlockType (Some joinContent))
    else if String.eqb n "core/image" then Some (mkBlockType None)
    else if String.eqb n "core/heading" then Some (mkBlockType None)
    else None;
  switchToBlockType b n :=
    if String.eqb (name b) "core/heading" && String.eqb n "core/paragraph"
    then Some [mkBlock (clientId b) n (attributes b) (innerBlocks b)]
    else None;
  isReusableBlock b := String.eqb (name b) "core/block";
  createBlock n attrs inner := mkBlock "fresh" n attrs inner;
  serialize b := name b;
  parse _ := [] }.

(** The same services where the REST client knows no route. *)
Definition offline : Services := {|
  __ := id;
  getPostTypeRoute _ := VUndef;
  getBlockType := @getBlockType services;
  switchToBlockType := @switchToBlockType services;
  isReusableBlock := @isReusableBlock services;
  createBlock := @createBlock services;
  serialize := @serialize services;
  parse := @parse services |}.

Definition paragraph (id content : string) : Block :=
  mkBlock id "core/paragraph" {[ "content" := VStr content ]} [].

Definition image (id : string) : Block :=
  mkBlock id "core/image" {[ "url" := VStr "a.png" ]} [].

Definition heading (id content : string) : Block :=
  mkBlock id "core/heading" {[ "content" := VStr content ]} [].

(** A new post, never saved, with a title and a status being edited. *)
Definition draft : Store := {|
  currentPost := {[ "id" := VNum 5; "status" := VStr "auto-draft" ]};
  postType := VStr "post";
  editedContent := VStr "<p>hello</p>";
  postEdits := {[ "title" := VStr "x"; "status" := VStr "publish" ]};
  autosaveable := true;
  saveable := true;
  isNew := true;
  autosave := None;
  blocks := [paragraph "a" "hel"; heading "b" "lo"; image "c"];
  reusableBlocks :=
    [(VStr "reusable1", mkReusableBlock "a" (VStr "Untitled") true)];
  provisional := Some "c";
  selection := Some "a" |}.

(** The options of a full save and of an autosave, an error of the REST API, and two
    resources it may answer a save of the post 5 with. *)
Definition saving : Obj := ∅.
Definition autosaving : Obj := {[ "autosave" := VBool true ]}.
Definition forbidden : Obj :=
  {[ "code" := VStr "forbidden"; "message" := VStr "No." ]}.
Definition published : Response :=
  ROne {[ "id" := VNum 5; "status" := VStr "publish";
          "link" := VStr "http://example.org/?p=5" ]}.
Definition revision : Response := ROne {[ "id" := VNum 99 ]}.

End Sample.

(** ** Transactions in a log of dispatches *)

(** The [optimist] property of an action, when this file gives it one. *)
Definition optimist_of (a : Action) : option Optimist :=
  match a with
  | Act_REQUEST_POST_UPDATE_START o _ => Some o
  | Act_REQUEST_POST_UPDATE_SUCCESS _ _ o _ => Some o
  | Act_REQUEST_POST_UPDATE_FAILURE o _ _ _ => Some o
  | Act_REMOVE_REUSABLE_BLOCK _ o => Some o
  | Act_DELETE_REUSABLE_BLOCK_SUCCESS _ o => Some o
  | Act_DELETE_REUSABLE_BLOCK_FAILURE _ o => Some o
  | updatePost _ o => o
  | _ => None
  end.

(** The phase an action gives the transaction [id], if it gives one. *)
Definition phase_in (id : string) (a : Action) : option Phase :=
  match optimist_of a with
  | Some o => if String.eqb (oid o) id then otype o else None
  | None => None
  end.

(** The phases the transaction [id] goes through in a log. *)
Definition phases (id : string) (log : list Action) : list Phase :=
  omap (phase_in id) log.

(** The client ids a log asks to remove with [removeBlocks]. *)
Fixpoint removed_ids (log : list Action) : list string :=
  match log with
  | [] => []
  | removeBlocks ids :: log' => (ids ++ removed_ids log')%list
  | _ :: log' => removed_ids log'
  end.

(** ** The handlers of templates, conversions and notices *)

(** The post a setup is given: its plain properties, and the objects
    under [content] and [title], which may be missing. *)
Record Post := mkPost {
  post_fields : Obj;
  post_content : option Obj;
  post_title : option Obj }.

(** The calls of action creators that only the handlers of this part
    make. *)
Inductive EditorAction :=
| setTemplateValidity (isValid : bool)
| setupEditorState (post : Post) (blocks : list Block) (edits : Obj)
| createWarningNotice (content : Element) (options : NoticeOptions)
| resetBlocks (blocks : list Block)
| receiveBlocks (blocks : list (option Block))
| insertBlock (block : Block)
| replaceBlock (replaced : string) (block : Block)
| saveReusableBlock (id : JsVal).

(** What a conversion dispatches: actions of both kinds. *)
Inductive Emitted :=
| Plain (a : Action)
| Editor (a : EditorAction).

(** The selectors and the functions of the block library that the
    handlers of this part call; [Template] is the type of a template. *)
Class Templates (State Template : Type) := {
  getTemplate : State → option Template;
  getTemplateLock : State → JsVal;
  getBlockCount : State → nat;
  doBlocksMatchTemplate : list Block → Template → bool;
  synchronizeBlocksWithTemplate : list Block → option Template → list Block;
  getDefaultBlockForPostFormat : JsVal → option string }.

Section MoreHandlers.
Context {State Template : Type}
  `{Selectors State} `{Services} `{Templates State Template}.

(** *** REFRESH_POST

    The promise has no [catch]: a rejection is handled by nobody. *)
Definition REFRESH_POST (st : State) : Eff (@Outcome State) :=
  let post := getCurrentPost st in
  let basePath := getPostTypeRoute (getCurrentPostType st) in
  let data : Obj := {[ "context" := VStr "edit" ]} in
  ret (apiFetch
         (mkRequest ("/wp/v2/" ++ to_string basePath ++ "/"
                       ++ to_string (prop post "id"))
            None (Some data))
         (λ newPost _, dispatch (resetPost newPost))
         (λ _ _, throw)).

(** *** SETUP_EDITOR, SYNCHRONIZE_TEMPLATE, CHECK_TEMPLATE_VALIDITY

    The three hand their actions back to the middleware. [None] is a
    [TypeError]: the post has no [content], or no [title] when its
    status is 'auto-draft'. *)

(** [! template || templateLock !== 'all' || doBlocksMatchTemplate( .. )] *)
Definition template_valid (blocks : list Block) (template : option Template)
    (templateLock : JsVal) : bool :=
  match template with
  | None => true
  | Some t =>
      negb (strict_eq templateLock (VStr "all")) || doBlocksMatchTemplate blocks t
  end.

Definition SETUP_EDITOR (post : Post) (autosave : option Obj) (st : State)
    : option (list EditorAction) :=
  let template := getTemplate st in
  let templateLock := getTemplateLock st in
  content ← post_content post;
  let '(blocks, isValidTemplate) :=
    if truthy (prop content "raw") then
      let blocks := parse (prop content "raw") in
      (blocks, template_valid blocks template templateLock)
    else if bool_decide (is_Some template) then
      (synchronizeBlocksWithTemplate [] template, true)
    else if truthy_id (getDefaultBlockForPostFormat (prop (post_fields post) "format")) then
      (match getDefaultBlockForPostFormat (prop (post_fields post) "format") with
       | Some blockName => [createBlock blockName ∅ []]
       | None => []
       end, true)
    else ([], true) in
  edits ←
    (if strict_eq (prop (post_fields post) "status") (VStr "auto-draft")
     then title ← post_title post; Some ({[ "title" := prop title "raw" ]} : Obj)
     else Some ∅);
  let autosaveAction :=
    match autosave with
    | Some autosave =>
        let noticeMessage :=
          __ "There is an autosave of this post that is more recent than the version below." in
        [createWarningNotice
           (ETag "p" []
              [EVal (VStr noticeMessage);
               EVal (VStr " ");
               ETag "a" [("href", prop autosave "editLink")]
                 [EVal (VStr (__ "View the autosave"))]])
           (mkNoticeOptions AUTOSAVE_POST_NOTICE_ID (Some (VStr noticeMessage)))]
    | None => []
    end in
  Some ([setTemplateValidity isValidTemplate;
         setupEditorState post blocks edits] ++ autosaveAction)%list.

Definition SYNCHRONIZE_TEMPLATE (st : State) : list EditorAction :=
  let blocks := getBlocks st in
  let template := getTemplate st in
  let updatedBlockList := synchronizeBlocksWithTemplate blocks template in
  [resetBlocks updatedBlockList; setTemplateValidity true].

Definition CHECK_TEMPLATE_VALIDITY (st : State) : list EditorAction :=
  let blocks := getBlocks st in
  let template := getTemplate st in
  let templateLock := getTemplateLock st in
  let isValid := template_valid blocks template templateLock in
  [setTemplateValidity isValid].

(** *** RECEIVE_REUSABLE_BLOCKS: [map( action.results, 'parsedBlock' )] *)
Definition RECEIVE_REUSABLE_BLOCKS (results : list (Obj * option Block))
    : list EditorAction :=
  [receiveBlocks (map snd results)].

(** *** EDIT_POST: [format] is [get( action, [ 'edits', 'format' ] )] *)
Definition EDIT_POST (format : JsVal) (st : State) : list EditorAction :=
  if negb (truthy format) then [] else
  let blockName := getDefaultBlockForPostFormat format in
  match blockName with
  | Some n =>
      if truthy_id blockName && (getBlockCount st =? 0)%nat
      then [insertBlock (createBlock n ∅ [])]
      else []
  | None => []
  end.

(** *** CREATE_NOTICE: what is handed to [speak], [spokenMessage || content] *)
Definition CREATE_NOTICE (content : Element) (spokenMessage : option JsVal)
    : Element :=
  match spokenMessage with
  | Some message => if truthy message then EVal message else content
  | None => content
  end.

(** *** CONVERT_BLOCK_TO_STATIC and CONVERT_BLOCK_TO_REUSABLE

    A conversion gives what it has dispatched, or [None] when it has
    thrown before its first dispatch, and the counter of [uniqueId].
    [createBlock] called with fewer arguments has no attributes and no
    inner blocks for the ones left out. *)

Definition CONVERT_BLOCK_TO_STATIC (converted : string) (st : State)
    : option (list Emitted) :=
  oldBlock ← getBlock st converted;
  reusableBlock ← getReusableBlock st (prop (attributes oldBlock) "ref");
  referencedBlock ← getBlock st (rb_clientId reusableBlock);
  let newBlock :=
    createBlock (name referencedBlock) (attributes referencedBlock) [] in
  Some [Editor (replaceBlock (clientId oldBlock) newBlock)].

Definition CONVERT_BLOCK_TO_REUSABLE (converted : string) (st : State)
    (c : nat) : option (list Emitted) * nat :=
  let parsedBlock := getBlock st converted in
  let fresh := uniqueId "reusable" c in
  match value fresh, parsedBlock with
  | Some id, Some parsedBlock =>
      let reusableBlock : Obj :=
        {[ "id" := VStr id;
           "clientId" := VStr (clientId parsedBlock);
           "title" := VStr (__ "Untitled reusable block") ]} in
      (Some [Plain (receiveReusableBlocks [(reusableBlock, Some parsedBlock)]);
             Editor (saveReusableBlock (prop reusableBlock "id"));
             Editor (replaceBlock (clientId parsedBlock)
                       (createBlock "core/block"
                          {[ "ref" := prop reusableBlock "id";
                             "layout" := prop (attributes parsedBlock) "layout" ]}
                          []));
             Editor (receiveBlocks [Some parsedBlock])],
       idCounter fresh)
  | _, _ => (None, idCounter fresh)
  end.

End MoreHandlers.

(** ** Notices of failures and of reusable blocks *)

Section NoticeVocabulary.
Context `{Services}.

(** The notice of a save that has failed. *)
Definition failed_notice (message : string) : Action :=
  createErrorNotice (EVal (VStr (__ message)))
    (mkNoticeOptions SAVE_POST_NOTICE_ID None).

(** The notice of a reusable block that could not be saved or deleted:
    the message of the error, written and spoken. *)
Definition reusable_error_notice (error : Obj) : Action :=
  createErrorNotice (EVal (prop error "message"))
    (mkNoticeOptions REUSABLE_BLOCK_NOTICE_ID (Some (prop error "message"))).

(** The notice of a reusable block that has been saved or deleted. *)
Definition reusable_notice (message : string) : Action :=
  createSuccessNotice (EVal (VStr (__ message)))
    (mkNoticeOptions REUSABLE_BLOCK_NOTICE_ID None).

End NoticeVocabulary.

(** ** A second store, with a template and reusable blocks *)

Module Studio.
Import Sample.

(** A published post with pending edits and a stored autosave; two
    paragraphs, an image and two references to the reusable block 7 in
    the tree; the reusable block 7 is persisted, "reusable1" is
    temporary, and the block of 9 is not in the tree. *)
Definition reference (id : string) (ref : JsVal) : Block :=
  mkBlock id "core/block" {[ "ref" := ref ]} [].

Definition shelf : Store := {|
  currentPost :=
    {[ "id" := VNum 5; "status" := VStr "publish";
       "title" := VStr "Old title"; "excerpt" := VStr "Old excerpt" ]};
  postType := VStr "post";
  editedContent := VStr "<p>foo</p><p>bar</p>";
  postEdits := {[ "title" := VStr "New title"; "content" := VStr "stale" ]};
  autosaveable := true;
  saveable := true;
  isNew := false;
  autosave := Some {[ "title" := VStr "Stored title";
                      "excerpt" := VStr "Stored excerpt" ]};
  blocks := [paragraph "p1" "foo"; paragraph "p2" "bar"; image "i1";
             reference "r1" (VNum 7); reference "r2" (VNum 8);
             reference "r3" (VNum 7)];
  reusableBlocks :=
    [(VNum 7, mkReusableBlock "p1" (VStr "Greeting") false);
     (VStr "reusable1", mkReusableBlock "p2" (VStr "Untitled") true);
     (VNum 9, mkReusableBlock "gone" (VStr "Lost") false)];
  provisional := None;
  selection := None |}.

(** A store that cannot be saved. *)
Definition locked : Store := {|
  currentPost := currentPost shelf;
  postType := postType shelf;
  editedContent := editedContent shelf;
  postEdits := postEdits shelf;
  autosaveable := false;
  saveable := false;
  isNew := false;
  autosave := None;
  blocks := [];
  reusableBlocks := [];
  provisional := None;
  selection := None |}.

(** A store with a template: the names the blocks must have, in order. *)
Record Desk := mkDesk {
  store : Store;
  template : option (list string);
  templateLock : JsVal }.

#[global] Instance desk_selectors : Selectors Desk := {
  getCurrentPost d := currentPost (store d);
  getCurrentPostType d := postType (store d);
  getEditedPostContent d := editedContent (store d);
  getPostEdits d := postEdits (store d);
  isEditedPostAutosaveable d := autosaveable (store d);
  isEditedPostSaveable d := saveable (store d);
  isEditedPostNew d := isNew (store d);
  getAutosave d := autosave (store d);
  getBlock d := getBlock (store d);
  getBlocks d := blocks (store d);
  getReusableBlock d := getReusableBlock (store d);
  getProvisionalBlockClientId d := provisional (store d);
  isBlockSelected d := isBlockSelected (store d);
  POST_UPDATE_TRANSACTION_ID := "post-update" }.

#[global] Instance desk_templates : Templates Desk (list string) := {
  getTemplate := template;
  getTemplateLock := templateLock;
  getBlockCount d := length (blocks (store d));
  doBlocksMatchTemplate bs t := bool_decide (map name bs = t);
  synchronizeBlocksWithTemplate bs t :=
    match t with
    | Some names => map (λ n, mkBlock "fresh" n ∅ []) names
    | None => bs
    end;
  getDefaultBlockForPostFormat format :=
    if strict_eq format (VStr "quote") then Some "core/quote"
    else if strict_eq format (VStr "image") then Some "core/image"
    else None }.

(** An empty document held to one paragraph by a locked template. *)
Definition blank : Desk :=
  mkDesk locked (Some ["core/paragraph"]) (VStr "all").

(** A post that comes with raw content and a title. *)
Definition written : Post :=
  mkPost {[ "status" := VStr "auto-draft"; "format" := VStr "quote" ]}
         (Some {[ "raw" := VStr "<p>hi</p>" ]})
         (Some {[ "raw" := VStr "Hello" ]}).

(** The draft of the sample with the provisional block "c" selected. *)
Definition focused : Store := {|
  currentPost := currentPost draft;
  postType := postType draft;
  editedContent := editedContent draft;
  postEdits := postEdits draft;
  autosaveable := true;
  saveable := true;
  isNew := true;
  autosave := None;
  blocks := blocks draft;
  reusableBlocks := reusableBlocks draft;
  provisional := Some "c";
  selection := Some "c" |}.

(** A tree whose first block refers to the reusable block 7 and holds,
    as inner block, another reference to it. *)
Definition nested : Store := {|
  currentPost := currentPost shelf;
  postType := postType shelf;
  editedContent := editedContent shelf;
  postEdits := ∅;
  autosaveable := true;
  saveable := true;
  isNew := false;
  autosave := None;
  blocks := [mkBlock "top" "core/block" {[ "ref" := VNum 7 ]}
               [reference "deep" (VNum 7)];
             paragraph "p1" "foo"];
  reusableBlocks := [(VNum 7, mkReusableBlock "p1" (VStr "Greeting") false)];
  provisional := None;
  selection := None |}.

(** A rejection of the REST API. *)
Definition refused : Obj := {[ "code" := VStr "rest_forbidden";
                               "message" := VStr "Sorry." ]}.

End Studio.

(** ** Properties of the handlers *)

Section Properties.
Context {State : Type} `{Selectors State} `{Services}.

Lemma truthy_id_Some (p : string) : p ≠ "" → truthy_id (Some p) = true.
Proof.
  intros Hp. cbn. destruct (String.eqb_spec p ""); [contradiction | reflexivity].
Qed.

(** C9. On every intent that changes the selection (selection cleared,
    block selected, multi-selection) the table runs
    [removeProvisionalBlock]: when a provisional block is set and is not
    the selected one, the handler dispatches nothing itself, issues no
    request, and the one action it returns to the middleware is the
    removal of exactly that block, with no selection of the previous
    block; when no provisional block is set, or it is the selected one,
    the handler returns no action, dispatches nothing and issues no
    request. *)
Theorem provisional_block_removed_on_selection_change
    (action : Action) (st : State) (c : nat) :
  selection_intent action →
  ∃ handler, effects action = Some handler ∧
    (∀ p, getProvisionalBlockClientId st = Some p → p ≠ "" →
          isBlockSelected st p = false →
          handler st c
          = mkRun [] c (Some (mkOutcome [removeBlock p false] None))) ∧
    (getProvisionalBlockClientId st = None →
     handler st c = mkRun [] c (Some (mkOutcome [] None))) ∧
    (∀ p, getProvisionalBlockClientId st = Some p →
          isBlockSelected st p = true →
          handler st c = mkRun [] c (Some (mkOutcome [] None))).
Proof.
  intros Hintent. exists (removeProvisionalBlock action). split.
  - destruct Hintent; reflexivity.
  - unfold removeProvisionalBlock. repeat split.
    + intros p Hp Hne Hsel. rewrite Hp, truthy_id_Some, Hsel by assumption.
      reflexivity.
    + intros Hp. rewrite Hp. reflexivity.
    + intros p Hp Hsel. rewrite Hp, Hsel, andb_false_r. reflexivity.
Qed.

(** C10. When the REST client has no route for the collection of
    reusable blocks, fetching, saving and deleting a reusable block all
    stop at once: no request, no dispatch, no notice, whatever the
    action and the state. *)
Theorem reusable_handlers_idle_without_route (id : JsVal) (st : State) (c : nat) :
  truthy (getPostTypeRoute (VStr "wp_block")) = false →
  FETCH_REUSABLE_BLOCKS id st c = idle c ∧
  SAVE_REUSABLE_BLOCK id st c = idle c ∧
  DELETE_REUSABLE_BLOCK id st c = idle c.
Proof.
  intros Hroute.
  unfold FETCH_REUSABLE_BLOCKS, SAVE_REUSABLE_BLOCK, DELETE_REUSABLE_BLOCK.
  rewrite Hroute. cbn. auto.
Qed.

(** C7. Deleting a reusable block that the state does not know, or one
    that is still temporary, stops at once: no delete request, no
    transaction begun, no block removed, no notice. *)
Theorem delete_refused_for_missing_or_temporary (id : JsVal) (st : State) (c : nat) :
  (getReusableBlock st id = None ∨
   ∃ reusableBlock, getReusableBlock st id = Some reusableBlock ∧
                    rb_isTemporary reusableBlock = true) →
  DELETE_REUSABLE_BLOCK id st c = idle c.
Proof.
  intros Hentry. unfold DELETE_REUSABLE_BLOCK.
  destruct (negb (truthy (getPostTypeRoute (VStr "wp_block")))); [reflexivity |].
  destruct Hentry as [-> | (reusableBlock & -> & ->)]; reflexivity.
Qed.

(** C6. When the type of the first block has no merge function, merging
    dispatches the selection of the first block and nothing else: no
    replacement, no removal, no request. *)
Theorem merge_without_capability_selects_first
    (first second : string) (st : State) (c : nat)
    (blockA : Block) (blockType : BlockType) :
  getBlock st first = Some blockA →
  getBlockType (name blockA) = Some blockType →
  merge blockType = None →
  MERGE_BLOCKS first second st c
  = mkRun [selectBlock (clientId blockA) None] c (Some nothing).
Proof.
  intros HA Htype Hmerge. unfold MERGE_BLOCKS.
  rewrite HA. cbn. rewrite Htype. cbn. rewrite Hmerge. reflexivity.
Qed.

(** C5. When the type of the first block has a merge function and the
    second block, taken as it is if it has the type of the first and
    transformed otherwise, gives at least one block, the pair of the
    two blocks is replaced by the first block, with its client id, name
    and inner blocks, carrying what the merge function makes of the
    attributes of the first block and of the first transformed block
    (laid over the attributes of the first block), followed by the
    transformed blocks after the first. *)
Theorem merge_replaces_pair
    (first second : string) (st : State) (c : nat)
    (blockA blockB : Block) (blockType : BlockType)
    (mergeAttributes : Obj → Obj → Obj)
    (transformed : Block) (others : list Block) :
  getBlock st first = Some blockA →
  getBlock st second = Some blockB →
  getBlockType (name blockA) = Some blockType →
  merge blockType = Some mergeAttributes →
  same_type_as blockA blockB = Some (transformed :: others) →
  ∃ merged,
    dispatched (MERGE_BLOCKS first second st c)
    = [selectBlock (clientId blockA) (Some (-1)%Z);
       replaceBlocks [clientId blockA; clientId blockB] (merged :: others)] ∧
    clientId merged = clientId blockA ∧
    name merged = name blockA ∧
    innerBlocks merged = innerBlocks blockA ∧
    (∀ k v, mergeAttributes (attributes blockA) (attributes transformed) !! k
            = Some v →
            attributes merged !! k = Some v) ∧
    (∀ k, mergeAttributes (attributes blockA) (attributes transformed) !! k
          = None →
          attributes merged !! k = attributes blockA !! k).
Proof.
  intros HA HB Htype Hmerge Hsame. unfold same_type_as in Hsame.
  eexists. split; [| split; [| split; [| split; [| split]]]].
  - unfold MERGE_BLOCKS. rewrite HA, HB. cbn. rewrite Htype. cbn.
    rewrite Hmerge. cbn. rewrite Hsame. reflexivity.
  - reflexivity.
  - reflexivity.
  - reflexivity.
  - intros k v Hk. cbn. unfold spread. apply lookup_union_Some_l, Hk.
  - intros k Hk. cbn. unfold spread. apply lookup_union_r, Hk.
Qed.

(** *** Facts about values and objects *)

Lemma includes_published (v : JsVal) :
  includes [VStr "publish"; VStr "private"; VStr "future"] v = true
  ↔ published_family v.
Proof.
  unfold includes, published_family, strict_eq. cbn.
  rewrite !orb_true_iff, !bool_decide_eq_true. intuition discriminate.
Qed.

Lemma includes_not_published (v : JsVal) :
  includes [VStr "publish"; VStr "private"; VStr "future"] v = false
  ↔ ¬ published_family v.
Proof.
  rewrite <- includes_published. destruct (includes _ v); intuition congruence.
Qed.

Lemma truthy_localised (s : string) :
  (∀ m, m ≠ "" → __ m ≠ "") → s ≠ "" → truthy (VStr (__ s)) = true.
Proof.
  intros Hloc Hs. cbn. destruct (String.eqb_spec (__ s) ""); [| reflexivity].
  exfalso. eapply Hloc; eassumption.
Qed.

Ltac localise m :=
  rewrite (truthy_localised m) by (assumption || discriminate).

Lemma index_publish (a b c : JsVal) :
  index (list_to_map [("publish", a); ("private", b); ("future", c)])
        (VStr "publish") = a.
Proof. reflexivity. Qed.

Lemma index_private (a b c : JsVal) :
  index (list_to_map [("publish", a); ("private", b); ("future", c)])
        (VStr "private") = b.
Proof. reflexivity. Qed.

Lemma index_future (a b c : JsVal) :
  index (list_to_map [("publish", a); ("private", b); ("future", c)])
        (VStr "future") = c.
Proof. reflexivity. Qed.

Lemma pick_lookup_out (o : Obj) (ks : list string) (k : string) :
  k ∉ ks → pick o ks !! k = None.
Proof.
  intros Hk. unfold pick. apply map_lookup_filter_None. right.
  intros v _ Hin. cbn in Hin. contradiction.
Qed.

Lemma pick_lookup_in (o : Obj) (ks : list string) (k : string) :
  k ∈ ks → pick o ks !! k = o !! k.
Proof.
  intros Hk. unfold pick. destruct (o !! k) as [v |] eqn:Hv.
  - apply map_lookup_filter_Some. split; assumption.
  - apply map_lookup_filter_None. left. assumption.
Qed.

(** *** The log of a handler that dispatches a list of actions *)

Lemma notices_app (l1 l2 : list Action) :
  notices (l1 ++ l2) = (notices l1 ++ notices l2)%list.
Proof. unfold notices. apply List.filter_app. Qed.

Lemma silent_app (l1 l2 : list Action) :
  silent (l1 ++ l2) = silent l1 && silent l2.
Proof. unfold silent. apply forallb_app. Qed.

(** C3. After a full save has gone through, the success notice follows
    from whether the status before and the status after are among
    publish, private and future: neither, no notice; before but not
    after, 'Post reverted to draft.' without a link; after but not
    before, the message of the new status ('Post published!', 'Post
    published privately!', 'Post scheduled!') with a link to the post;
    both, 'Post updated!' with a link. The localisation is assumed not to
    turn a message into the empty string. *)
Theorem full_save_success_notice
    (previousPost : Obj) (post : Response) (st : State) (c : nat) :
  (∀ m, m ≠ "" → __ m ≠ "") →
  let log :=
    dispatched (REQUEST_POST_UPDATE_SUCCESS previousPost post false st c) in
  let before := prop previousPost "status" in
  let after := rprop post "status" in
  (¬ published_family before → ¬ published_family after → notices log = []) ∧
  (published_family before → ¬ published_family after →
   notices log = [saved_notice "Post reverted to draft." no_link]) ∧
  (¬ published_family before → after = VStr "publish" →
   notices log = [saved_notice "Post published!" (view_link post)]) ∧
  (¬ published_family before → after = VStr "private" →
   notices log = [saved_notice "Post published privately!" (view_link post)]) ∧
  (¬ published_family before → after = VStr "future" →
   notices log = [saved_notice "Post scheduled!" (view_link post)]) ∧
  (published_family before → published_family after →
   notices log = [saved_notice "Post updated!" (view_link post)]).
Proof.
  intros Hloc log before after. subst log before after.
  unfold REQUEST_POST_UPDATE_SUCCESS.
  assert (Hdirty : ∀ b (k : Eff (@Outcome State)),
    notices (dispatched ((when b (dispatch Act_DIRTY_ARTIFICIALLY) ;; k) c))
    = notices (dispatched (k c))).
  { intros [] k; cbn; destruct (value (k c)); reflexivity. }
  rewrite Hdirty. clear Hdirty.
  repeat split.
  - intros Hb Ha. apply includes_not_published in Hb, Ha.
    rewrite Hb, Ha. reflexivity.
  - intros Hb Ha. apply includes_published in Hb.
    apply includes_not_published in Ha. rewrite Hb, Ha. cbn -[truthy].
    localise "Post reverted to draft.". reflexivity.
  - intros Hb Ha. apply includes_not_published in Hb.
    assert (Hw : published_family (rprop post "status"))
      by (rewrite Ha; unfold published_family; tauto).
    apply includes_published in Hw. rewrite Hb, Hw, Ha.
    cbn -[truthy index list_to_map]. rewrite index_publish.
    localise "Post published!". reflexivity.
  - intros Hb Ha. apply includes_not_published in Hb.
    assert (Hw : published_family (rprop post "status"))
      by (rewrite Ha; unfold published_family; tauto).
    apply includes_published in Hw. rewrite Hb, Hw, Ha.
    cbn -[truthy index list_to_map]. rewrite index_private.
    localise "Post published privately!". reflexivity.
  - intros Hb Ha. apply includes_not_published in Hb.
    assert (Hw : published_family (rprop post "status"))
      by (rewrite Ha; unfold published_family; tauto).
    apply includes_published in Hw. rewrite Hb, Hw, Ha.
    cbn -[truthy index list_to_map]. rewrite index_future.
    localise "Post scheduled!". reflexivity.
  - intros Hb Ha. apply includes_published in Hb, Ha. rewrite Hb, Ha.
    cbn -[truthy]. localise "Post updated!". reflexivity.
Qed.

(** C8. When the request of a trash intent is rejected with an error,
    the only notice is an error notice under the trash notice id; its
    message is the message of the error when that message is present
    (truthy) and the code of the error is not 'unknown_error', and the
    localised 'Trashing failed' otherwise. *)
Theorem trash_failure_notice
    (postId : JsVal) (error : Obj) (st0 st1 st2 : State) (c : nat) :
  ∃ message,
    notices (dispatched (attempt (Act_TRASH_POST postId) st0
                           (Rejected (Some error)) st1 st2 c))
    = [createErrorNotice (EVal message)
         (mkNoticeOptions TRASH_POST_NOTICE_ID None)] ∧
    (truthy (prop error "message") = true →
     prop error "code" ≠ VStr "unknown_error" →
     message = prop error "message") ∧
    (truthy (prop error "message") = false ∨
     prop error "code" = VStr "unknown_error" →
     message = VStr (__ "Trashing failed")).
Proof.
  eexists. split; [reflexivity |]. cbn beta.
  unfold strict_eq. split.
  - intros -> Hcode. rewrite bool_decide_eq_false_2 by assumption. reflexivity.
  - intros [-> | Hcode]; [reflexivity |].
    rewrite bool_decide_eq_true_2 by assumption.
    rewrite andb_false_r. reflexivity.
Qed.

(** C2. Once the gate of a save or an autosave is open the handler
    issues its request, and when the request is fulfilled the callback
    dispatches two actions in this order: the reset from the returned
    resource ([resetAutosave] for an autosave, [resetPost] for a full
    save), then the success action, which resolves the transaction of
    [POST_UPDATE_TRANSACTION_ID] as COMMIT when the id of the returned
    resource is the id of the post that was saved and as REVERT when
    it is not. *)
Theorem save_success_resets_then_resolves (options : Obj) (st : State) (c : nat) :
  gate_open options st = true →
  let isAutosave := truthy (prop options "autosave") in
  let post := getCurrentPost st in
  ∃ p, issued (REQUEST_POST_UPDATE options st c) = Some p ∧
    ∀ (newPost : Response) (st1 : State) (c1 : nat), ∃ phase,
      on_fulfilled p newPost st1 c1
      = mkRun [ (if isAutosave then resetAutosave else resetPost) newPost;
                Act_REQUEST_POST_UPDATE_SUCCESS post newPost
                  (mkOptimist (Some phase) POST_UPDATE_TRANSACTION_ID)
                  isAutosave ]
              c1 (Some tt) ∧
      (rprop newPost "id" = prop post "id" → phase = COMMIT) ∧
      (rprop newPost "id" ≠ prop post "id" → phase = REVERT).
Proof.
  unfold gate_open. intros Hgate. cbv zeta.
  unfold issued, REQUEST_POST_UPDATE.
  destruct (truthy (prop options "autosave")); rewrite Hgate; cbn;
    (eexists; split; [reflexivity |]);
    intros newPost st1 c1; cbn;
    (eexists; split; [reflexivity |]); unfold strict_eq;
    (split; intros Hid;
       [rewrite bool_decide_eq_true_2 by assumption
       | rewrite bool_decide_eq_false_2 by assumption]; reflexivity).
Qed.

(** *** The status a save sends *)

Lemma spread_default_kept (o : Obj) (k : string) (d v : JsVal) :
  o !! k = Some v → spread {[ k := d ]} o = o.
Proof.
  intros Hk. unfold spread. apply map_eq. intros i.
  destruct (decide (i = k)) as [-> | Hne].
  - rewrite Hk. apply lookup_union_Some_l, Hk.
  - apply lookup_union_l. apply lookup_singleton_ne. congruence.
Qed.

Lemma spread_default_used (o : Obj) (k : string) (d : JsVal) :
  o !! k = None → spread {[ k := d ]} o !! k = Some d.
Proof.
  intros Hk. unfold spread. rewrite lookup_union_r by assumption.
  apply lookup_singleton_eq.
Qed.

Lemma status_of_body (edits : Obj) (content id : JsVal) :
  (<[ "id" := id ]> (<[ "content" := content ]> edits)) !! "status"
  = edits !! "status".
Proof. rewrite !lookup_insert_ne by discriminate. reflexivity. Qed.

Lemma status_not_picked (o : Obj) :
  pick o ["title"; "content"; "excerpt"] !! "status" = None.
Proof.
  apply pick_lookup_out. rewrite !elem_of_cons, elem_of_nil.
  intros [?|[?|[?|[]]]]; discriminate.
Qed.

(** C4, as the code has it. Once its gate is open, a save issues a
    request whose payload has this status. For a new post and a full
    save: 'draft' when the edits carry no status; the status of the
    edits, with nothing added to the edits but the content and the id,
    when they carry one. For a new post and an autosave: 'draft'
    whatever the edits carry, as an autosave keeps only the title, the
    content and the excerpt of the edits. For a post that is not new no
    status is put in: a full save sends the status of the edits, if
    any, and an autosave the one of the stored autosave, if any. *)
Theorem status_of_save_payload (options : Obj) (st : State) (c : nat) :
  gate_open options st = true →
  let isAutosave := truthy (prop options "autosave") in
  let edits := getPostEdits st in
  ∃ toSend, payload (REQUEST_POST_UPDATE options st c) = Some toSend ∧
    (isEditedPostNew st = true → isAutosave = false →
     (edits !! "status" = None → toSend !! "status" = Some (VStr "draft")) ∧
     (∀ s, edits !! "status" = Some s →
           toSend !! "status" = Some s ∧
           toSend = <[ "id" := prop (getCurrentPost st) "id" ]>
                      (<[ "content" := getEditedPostContent st ]> edits))) ∧
    (isEditedPostNew st = true → isAutosave = true →
     toSend !! "status" = Some (VStr "draft")) ∧
    (isEditedPostNew st = false → isAutosave = false →
     toSend !! "status" = edits !! "status") ∧
    (isEditedPostNew st = false → isAutosave = true →
     toSend !! "status" = default ∅ (getAutosave st) !! "status").
Proof.
  unfold gate_open. intros Hgate. cbv zeta.
  unfold payload, REQUEST_POST_UPDATE.
  destruct (truthy (prop options "autosave")); rewrite Hgate; cbn;
    (eexists; split; [reflexivity |]);
    (split; [| split; [| split]]); intros Hnew Hauto;
    try discriminate; rewrite Hnew.
  - rewrite lookup_insert_ne by discriminate. unfold spread at 1.
    apply lookup_union_Some_l. rewrite status_of_body.
    apply spread_default_used, status_not_picked.
  - rewrite lookup_insert_ne by discriminate. unfold spread at 1 2.
    rewrite lookup_union_r
      by (rewrite status_of_body; apply status_not_picked).
    apply lookup_union_l, status_not_picked.
  - split.
    + intros Hnone. rewrite status_of_body.
      apply spread_default_used, Hnone.
    + intros s Hs. rewrite (spread_default_kept _ _ _ _ Hs).
      rewrite status_of_body. split; [assumption | reflexivity].
  - apply status_of_body.
Qed.

(** *** Notices of an autosave *)

Lemma no_changes_spec (error : option Obj) :
  match error with
  | Some e => strict_eq (VStr "rest_autosave_no_changes") (prop e "code")
  | None => false
  end = true ↔ no_changes error.
Proof.
  unfold no_changes, strict_eq. destruct error as [e |].
  - rewrite bool_decide_eq_true. split.
    + intros Hcode. exists e. split; congruence.
    + intros (e' & [= <-] & Hcode). congruence.
  - split; [discriminate |]. intros (e & [=] & _).
Qed.

Lemma autosave_edits_unpublished (st : State) :
  let picked := pick (getPostEdits st) ["title"; "content"; "excerpt"] in
  let edits :=
    if isEditedPostNew st
    then spread {[ "status" := VStr "draft" ]} picked
    else picked in
  includes [VStr "publish"; VStr "private"; VStr "future"]
    (prop edits "status") = false.
Proof.
  cbv zeta. apply includes_not_published. unfold prop, published_family.
  destruct (isEditedPostNew st).
  - rewrite spread_default_used by apply status_not_picked.
    cbn. intuition discriminate.
  - rewrite status_not_picked. cbn. intuition discriminate.
Qed.

(** C1, as the code has it. A save with the autosave option dispatches
    no success notice and no error notice when its request is fulfilled,
    with the same resource or with a revision, and when it is rejected
    with the code 'rest_autosave_no_changes'. When the request is
    rejected with anything else, the handler of the failure dispatches
    one error notice, 'Updating failed', under the save notice id. *)
Theorem autosave_notices
    (options : Obj) (st0 st1 st2 : State) (s : Settlement) (c : nat) :
  truthy (prop options "autosave") = true →
  let log :=
    dispatched (attempt (Act_REQUEST_POST_UPDATE options) st0 s st1 st2 c) in
  (∀ newPost, s = Fulfilled newPost → silent log = true) ∧
  (∀ error, s = Rejected error → no_changes error → silent log = true) ∧
  (∀ error, s = Rejected error → ¬ no_changes error →
   isEditedPostAutosaveable st0 = true →
   notices log = [createErrorNotice (EVal (VStr (__ "Updating failed")))
                    (mkNoticeOptions SAVE_POST_NOTICE_ID None)]).
Proof.
  intros Hauto. cbv zeta. unfold attempt. cbn [effects].
  unfold REQUEST_POST_UPDATE. rewrite Hauto.
  destruct (isEditedPostAutosaveable st0) eqn:Hgate; cbn [negb].
  2: { repeat split; intros; subst; try reflexivity; discriminate. }
  repeat split.
  - intros newPost ->. cbn. unfold REQUEST_POST_UPDATE_SUCCESS, when.
    destruct (size (getPostEdits st2) =? 0)%nat; reflexivity.
  - intros error -> Hnone. apply no_changes_spec in Hnone.
    cbn. unfold REQUEST_POST_UPDATE_FAILURE. rewrite Hnone. reflexivity.
  - intros error -> Hsome _.
    assert (Hcode :
      match error with
      | Some e => strict_eq (VStr "rest_autosave_no_changes") (prop e "code")
      | None => false
      end = false).
    { destruct (match error with Some _ => _ | None => _ end) eqn:E;
        [| reflexivity].
      apply no_changes_spec in E. contradiction. }
    cbn. unfold REQUEST_POST_UPDATE_FAILURE. rewrite Hcode.
    pose proof (autosave_edits_unpublished st0) as Hedits. cbv zeta in Hedits.
    rewrite Hedits, andb_false_r. reflexivity.
Qed.

End Properties.

(** ** The statements on the sample store *)

Import Sample.

Lemma identity_keeps_messages : ∀ m : string, m ≠ "" → @__ services m ≠ "".
Proof. intros m Hm. exact Hm. Qed.

(** Clearing the selection while the image "c" is provisional and the
    paragraph "a" is selected returns the removal of "c", and nothing
    else; selecting a block while the provisional block "c" is the
    selected one returns nothing. *)
Lemma provisional_block_removed_on_selection_change_witness :
  (∃ handler, effects Act_CLEAR_SELECTED_BLOCK = Some handler ∧
     handler draft 0%nat
     = mkRun [] 0%nat (Some (mkOutcome [removeBlock "c" false] None)) ∧
     (returned <$> value (handler draft 0%nat))
     = Some [removeBlock "c" false]) ∧
  (∃ handler, effects (Act_SELECT_BLOCK "c") = Some handler ∧
     (returned <$> value (handler Studio.focused 0%nat)) = Some []).
Proof.
  split.
  - destruct (provisional_block_removed_on_selection_change
                Act_CLEAR_SELECTED_BLOCK draft 0%nat intent_cleared)
      as (handler & Hhandler & Hremoved & _).
    exists handler. split; [exact Hhandler |].
    assert (Hrun : handler draft 0%nat
                   = mkRun [] 0%nat (Some (mkOutcome [removeBlock "c" false] None)))
      by (apply Hremoved; [reflexivity | discriminate | reflexivity]).
    split; [exact Hrun | rewrite Hrun; reflexivity].
  - destruct (provisional_block_removed_on_selection_change
                (Act_SELECT_BLOCK "c") Studio.focused 0%nat (intent_selected "c"))
      as (handler & Hhandler & _ & _ & Hselected).
    exists handler. split; [exact Hhandler |].
    rewrite (Hselected "c"); reflexivity.
Defined.

(** Without a route, deleting the reusable block 7 does nothing. *)
Lemma reusable_handlers_idle_without_route_witness :
  truthy (@getPostTypeRoute offline (VStr "wp_block")) = false ∧
  @DELETE_REUSABLE_BLOCK Store selectors offline (VNum 7) draft 0%nat
  = idle 0%nat.
Proof.
  split; [reflexivity |].
  apply (@reusable_handlers_idle_without_route Store selectors offline
           (VNum 7) draft 0%nat).
  reflexivity.
Defined.

(** The reusable block "reusable1" of the sample is temporary. *)
Lemma delete_refused_for_missing_or_temporary_witness :
  DELETE_REUSABLE_BLOCK (VStr "reusable1") draft 3%nat = idle 3%nat.
Proof.
  apply delete_refused_for_missing_or_temporary. right.
  exists (mkReusableBlock "a" (VStr "Untitled") true). split; reflexivity.
Defined.

(** An image does not merge: merging "c" with "a" selects "c". *)
Lemma merge_without_capability_selects_first_witness :
  MERGE_BLOCKS "c" "a" draft 0%nat
  = mkRun [selectBlock "c" None] 0%nat (Some nothing).
Proof.
  apply (merge_without_capability_selects_first "c" "a" draft 0%nat
           (image "c") (mkBlockType None)); reflexivity.
Defined.

(** Merging the paragraph "a" with the heading "b" replaces the two by
    one block "a". *)
Lemma merge_replaces_pair_witness :
  ∃ merged,
    dispatched (MERGE_BLOCKS "a" "b" draft 0%nat)
    = [selectBlock "a" (Some (-1)%Z); replaceBlocks ["a"; "b"] [merged]] ∧
    clientId merged = "a" ∧
    attributes merged !! "content" = Some (VStr "hello").
Proof.
  destruct (@merge_replaces_pair Store selectors services "a" "b" draft 0%nat
              (paragraph "a" "hel") (heading "b" "lo")
              (mkBlockType (Some joinContent)) joinContent
              (mkBlock "b" "core/paragraph" {[ "content" := VStr "lo" ]} []) []
              ltac:(reflexivity) ltac:(reflexivity) ltac:(reflexivity)
              ltac:(reflexivity) ltac:(reflexivity))
    as (merged & Hlog & Hid & _ & _ & Hcarried & _).
  exists merged. split; [exact Hlog |]. split; [exact Hid |].
  apply Hcarried. reflexivity.
Defined.

(** A full save that publishes the new post announces 'Post published!'
    with a link. *)
Lemma full_save_success_notice_witness :
  notices (dispatched (REQUEST_POST_UPDATE_SUCCESS
                         (currentPost draft) published false draft 0%nat))
  = [saved_notice "Post published!" (view_link published)].
Proof.
  apply (full_save_success_notice (currentPost draft) published draft 0%nat
           identity_keeps_messages).
  - unfold published_family. cbn. intuition discriminate.
  - reflexivity.
Defined.

(** An autosave of the post 5 answered with the resource 99 resets the
    autosave and reverts the transaction. *)
Lemma save_success_resets_then_resolves_witness :
  ∃ p, issued (REQUEST_POST_UPDATE autosaving draft 0%nat) = Some p ∧
    on_fulfilled p revision draft 0%nat
    = mkRun [resetAutosave revision;
             Act_REQUEST_POST_UPDATE_SUCCESS (currentPost draft) revision
               (mkOptimist (Some REVERT) "post-update") true]
            0%nat (Some tt).
Proof.
  destruct (@save_success_resets_then_resolves Store selectors services
              autosaving draft 0%nat
              ltac:(reflexivity))
    as (p & Hissued & Hthen).
  exists p. split; [exact Hissued |].
  destruct (Hthen revision draft 0%nat) as (phase & Hrun & _ & Hrevert).
  rewrite Hrun, Hrevert; [reflexivity | discriminate].
Defined.

(** A full save of the new post with the status 'publish' in its edits
    sends 'publish'. *)
Lemma status_of_save_payload_witness :
  ∃ toSend, payload (REQUEST_POST_UPDATE saving draft 0%nat) = Some toSend ∧
    toSend !! "status" = Some (VStr "publish").
Proof.
  destruct (@status_of_save_payload Store selectors services saving draft 0%nat
              ltac:(reflexivity))
    as (toSend & Hpayload & Hfull & _).
  exists toSend. split; [exact Hpayload |].
  destruct (Hfull ltac:(reflexivity) ltac:(reflexivity)) as [_ Hkept].
  apply (Hkept (VStr "publish")). reflexivity.
Defined.

(** An autosave answered with a revision stays silent. *)
Lemma autosave_notices_witness :
  silent (dispatched (attempt (Act_REQUEST_POST_UPDATE autosaving) draft
                        (Fulfilled revision) draft draft 0%nat)) = true.
Proof.
  destruct (@autosave_notices Store selectors services
              autosaving draft draft draft
              (Fulfilled revision) 0%nat ltac:(reflexivity))
    as (Hsilent & _ & _).
  apply (Hsilent revision). reflexivity.
Defined.

(** Trashing the post 3 refused with the message 'No.' announces 'No.'. *)
Lemma trash_failure_notice_witness :
  notices (dispatched (attempt (Act_TRASH_POST (VNum 3)) draft
                         (Rejected (Some forbidden)) draft draft 0%nat))
  = [createErrorNotice (EVal (VStr "No."))
       (mkNoticeOptions TRASH_POST_NOTICE_ID None)].
Proof.
  destruct (trash_failure_notice (VNum 3) forbidden draft draft draft 0%nat)
    as (message & Hlog & Hserver & _).
  rewrite Hlog, Hserver; [reflexivity | reflexivity | discriminate].
Defined.

(** An autosave of the new post whose edits carry the status 'publish'
    sends 'draft', not the status of the edits. *)
Lemma autosave_sends_draft_over_edited_status :
  gate_open autosaving draft = true ∧
  isEditedPostNew draft = true ∧
  getPostEdits draft !! "status" = Some (VStr "publish") ∧
  (payload (REQUEST_POST_UPDATE autosaving draft 0%nat)
     ≫= λ toSend : Obj, toSend !! "status") = Some (VStr "draft") ∧
  (payload (REQUEST_POST_UPDATE autosaving draft 0%nat)
     ≫= λ toSend : Obj, toSend !! "status") ≠ getPostEdits draft !! "status".
Proof. vm_compute. repeat split; discriminate. Qed.

(** An autosave whose request is refused with the code 'forbidden'
    dispatches an error notice. *)
Lemma autosave_failure_is_announced :
  truthy (prop autosaving "autosave") = true ∧
  silent (dispatched (attempt (Act_REQUEST_POST_UPDATE autosaving) draft
                        (Rejected (Some forbidden)) draft draft 0%nat)) = false ∧
  notices (dispatched (attempt (Act_REQUEST_POST_UPDATE autosaving) draft
                         (Rejected (Some forbidden)) draft draft 0%nat))
  = [createErrorNotice (EVal (VStr "Updating failed"))
       (mkNoticeOptions SAVE_POST_NOTICE_ID None)].
Proof. vm_compute. repeat split. Qed.

(** ** Further properties of the handlers *)

Section MoreProperties.
Context {State Template : Type}
  `{Selectors State} `{Services} `{Templates State Template}.

Lemma phases_app (id : string) (l1 l2 : list Action) :
  phases id (l1 ++ l2) = (phases id l1 ++ phases id l2)%list.
Proof. unfold phases. apply omap_app. Qed.

Lemma success_handler_phases (id : string) (previousPost : Obj)
    (post : Response) (isAutosave : bool) (st : State) (c : nat) :
  phases id (dispatched
               (REQUEST_POST_UPDATE_SUCCESS previousPost post isAutosave st c))
  = [].
Proof.
  unfold REQUEST_POST_UPDATE_SUCCESS, when.
  destruct (negb (size (getPostEdits st) =? 0)%nat), isAutosave;
    try reflexivity;
    destruct (includes _ (prop previousPost "status")),
             (includes _ (rprop post "status")); cbn -[truthy index];
    repeat case_match; reflexivity.
Qed.

Lemma failure_handler_phases (id : string) (post edits : Obj)
    (error : option Obj) (st : State) (c : nat) :
  phases id (dispatched (REQUEST_POST_UPDATE_FAILURE post edits error st c))
  = [].
Proof.
  unfold REQUEST_POST_UPDATE_FAILURE. repeat case_match; reflexivity.
Qed.

Lemma dispatched_then_ret {A} (m : Eff A) (c : nat) :
  dispatched ((m ;; ret tt) c) = dispatched (m c).
Proof.
  unfold bind. destruct (value (m c)); cbn; [apply app_nil_r | reflexivity].
Qed.

(** A save that the gate stops dispatches nothing at all. A save that
    goes ahead begins the transaction [POST_UPDATE_TRANSACTION_ID] once
    and, however its request ends, resolves it once, after the
    beginning; a rejected request resolves it as REVERT. *)
Theorem save_transaction_discipline
    (options : Obj) (st0 st1 st2 : State) (s : Settlement) (c : nat) :
  let log :=
    dispatched (attempt (Act_REQUEST_POST_UPDATE options) st0 s st1 st2 c) in
  (gate_open options st0 = false → log = []) ∧
  (gate_open options st0 = true →
   ∃ resolution,
     phases POST_UPDATE_TRANSACTION_ID log = [BEGIN; resolution] ∧
     resolution ≠ BEGIN ∧
     (∀ error, s = Rejected error → resolution = REVERT)).
Proof.
  cbv zeta. unfold gate_open, attempt. cbn [effects].
  unfold REQUEST_POST_UPDATE.
  split; intros Hgate.
  - destruct (truthy (prop options "autosave")); rewrite Hgate; reflexivity.
  - pose proof success_handler_phases as Hsuccess.
    pose proof failure_handler_phases as Hfailure.
    unfold phases in Hsuccess, Hfailure.
    destruct (truthy (prop options "autosave")); rewrite Hgate; destruct s;
      cbn; rewrite String.eqb_refl, dispatched_then_ret;
      rewrite ?Hsuccess, ?Hfailure;
      (eexists; split; [reflexivity |]);
      (split; [| intros error' [=]; try reflexivity]);
      try discriminate; destruct (negb _); discriminate.
Qed.

(** *** What a save sends *)

Lemma parent_not_in_body (st : State) :
  let picked := pick (getPostEdits st) ["title"; "content"; "excerpt"] in
  let edits :=
    if isEditedPostNew st
    then spread {[ "status" := VStr "draft" ]} picked
    else picked in
  (<[ "id" := prop (getCurrentPost st) "id" ]>
     (<[ "content" := getEditedPostContent st ]> edits)) !! "parent" = None.
Proof.
  cbv zeta. rewrite !lookup_insert_ne by discriminate.
  assert (Hpicked :
    pick (getPostEdits st) ["title"; "content"; "excerpt"] !! "parent" = None).
  { apply pick_lookup_out. rewrite !elem_of_cons, elem_of_nil.
    intros [?|[?|[?|[]]]]; discriminate. }
  destruct (isEditedPostNew st); [| exact Hpicked].
  unfold spread. rewrite lookup_union_r by exact Hpicked.
  apply lookup_singleton_ne. discriminate.
Qed.

(** Whatever the edits hold under [content] and [id], the payload of a
    save carries the content of the editor and the id of the post; the
    payload of an autosave also names the post as its parent. *)
Theorem save_payload_identity (options : Obj) (st : State) (c : nat) :
  gate_open options st = true →
  ∃ toSend, payload (REQUEST_POST_UPDATE options st c) = Some toSend ∧
    toSend !! "content" = Some (getEditedPostContent st) ∧
    toSend !! "id" = Some (prop (getCurrentPost st) "id") ∧
    (truthy (prop options "autosave") = true →
     toSend !! "parent" = Some (prop (getCurrentPost st) "id")).
Proof.
  unfold gate_open. intros Hgate. unfold payload, REQUEST_POST_UPDATE.
  destruct (truthy (prop options "autosave")); rewrite Hgate; cbn;
    (eexists; split; [reflexivity |]).
  - split; [| split].
    + rewrite lookup_insert_ne by discriminate. unfold spread at 1.
      apply lookup_union_Some_l. rewrite lookup_insert_ne by discriminate.
      apply lookup_insert_eq.
    + rewrite lookup_insert_ne by discriminate. unfold spread at 1.
      apply lookup_union_Some_l. apply lookup_insert_eq.
    + intros _. apply lookup_insert_eq.
  - split; [| split].
    + rewrite lookup_insert_ne by discriminate. apply lookup_insert_eq.
    + apply lookup_insert_eq.
    + discriminate.
Qed.

(** The title and the excerpt an autosave sends are those of the edits;
    failing that, those of the stored autosave; failing that, those of
    the post. *)
Theorem autosave_backfill (options : Obj) (st : State) (c : nat) (k : string) :
  gate_open options st = true →
  truthy (prop options "autosave") = true →
  k = "title" ∨ k = "excerpt" →
  let edits := getPostEdits st in
  let stored := default ∅ (getAutosave st) in
  let post := getCurrentPost st in
  ∃ toSend, payload (REQUEST_POST_UPDATE options st c) = Some toSend ∧
    (∀ v, edits !! k = Some v → toSend !! k = Some v) ∧
    (∀ v, edits !! k = None → stored !! k = Some v → toSend !! k = Some v) ∧
    (edits !! k = None → stored !! k = None → toSend !! k = post !! k).
Proof.
  unfold gate_open. intros Hgate Hauto Hk. cbv zeta.
  unfold payload, REQUEST_POST_UPDATE. rewrite Hauto in *. rewrite Hgate. cbn.
  eexists; split; [reflexivity |].
  assert (Hin : k ∈ ["title"; "content"; "excerpt"]).
  { rewrite !elem_of_cons. tauto. }
  assert (Hne : k ≠ "parent" ∧ k ≠ "id" ∧ k ≠ "content" ∧ k ≠ "status").
  { destruct Hk as [-> | ->]; repeat split; discriminate. }
  destruct Hne as (Hparent & Hid & Hcontent & Hstatus).
  assert (Hbody :
    ∀ body : Obj,
      (if isEditedPostNew st
       then spread {[ "status" := VStr "draft" ]} body
       else body) !! k = body !! k).
  { intros body. destruct (isEditedPostNew st); [| reflexivity].
    unfold spread. apply lookup_union_l, lookup_singleton_ne. congruence. }
  repeat split; intros;
    rewrite (lookup_insert_ne _ "parent") by congruence;
    unfold spread at 1 2;
    rewrite !lookup_union, !lookup_insert_ne, Hbody, !pick_lookup_in
      by (assumption || congruence);
    repeat match goal with Heq : _ !! k = _ |- _ => rewrite Heq end;
    destruct (default ∅ (getAutosave st) !! k), (getCurrentPost st !! k);
    reflexivity.
Qed.

(** What a save applies to the post ahead of the answer is part of what
    it sends: every property of the optimistic update goes out with the
    same value, and for a full save the two are the same object. *)
Theorem optimistic_update_is_sent (options : Obj) (st : State) (c : nat) :
  gate_open options st = true →
  ∃ applied sent,
    optimistic_payload (dispatched (REQUEST_POST_UPDATE options st c))
    = Some applied ∧
    payload (REQUEST_POST_UPDATE options st c) = Some sent ∧
    applied ⊆ sent ∧
    (truthy (prop options "autosave") = false → applied = sent).
Proof.
  unfold gate_open. intros Hgate. unfold payload, REQUEST_POST_UPDATE.
  destruct (truthy (prop options "autosave")) eqn:Hauto; rewrite Hgate; cbn;
    (eexists; eexists; split; [reflexivity |]; split; [reflexivity |]).
  - split; [| discriminate].
    apply map_subseteq_spec. intros i x Hi.
    destruct (decide (i = "parent")) as [-> | Hne].
    + pose proof (parent_not_in_body st) as Hparent.
      cbv zeta in Hparent. congruence.
    + rewrite lookup_insert_ne by congruence. unfold spread at 1.
      apply lookup_union_Some_l, Hi.
  - split; [reflexivity | reflexivity].
Qed.

(** *** After a save *)

(** A failed save whose error carries the code of an autosave without
    changes dispatches nothing. Any other failed save dispatches one
    error notice and nothing else: 'Publishing failed' or 'Scheduling
    failed' when the post was not published and the edits asked for
    publish or private, or for future; 'Updating failed' in every other
    case. *)
Theorem full_save_failure_notice
    (post edits : Obj) (error : option Obj) (st : State) (c : nat) :
  let log := dispatched (REQUEST_POST_UPDATE_FAILURE post edits error st c) in
  let before := prop post "status" in
  let wanted := prop edits "status" in
  (no_changes error → log = []) ∧
  (¬ no_changes error →
   (¬ published_family before →
    wanted = VStr "publish" ∨ wanted = VStr "private" →
    log = [failed_notice "Publishing failed"]) ∧
   (¬ published_family before → wanted = VStr "future" →
    log = [failed_notice "Scheduling failed"]) ∧
   (published_family before ∨ ¬ published_family wanted →
    log = [failed_notice "Updating failed"])).
Proof.
  cbv zeta. unfold REQUEST_POST_UPDATE_FAILURE. split.
  - intros Hnone. apply no_changes_spec in Hnone. rewrite Hnone. reflexivity.
  - intros Hsome.
    destruct (match error with Some _ => _ | None => _ end) eqn:Hcode.
    { apply no_changes_spec in Hcode. contradiction. }
    repeat split.
    + intros Hb Hw. apply includes_not_published in Hb. rewrite Hb.
      destruct Hw as [-> | ->]; reflexivity.
    + intros Hb ->. apply includes_not_published in Hb. rewrite Hb.
      reflexivity.
    + intros [Hb | Hw].
      * apply includes_published in Hb. rewrite Hb. reflexivity.
      * apply includes_not_published in Hw. rewrite Hw, andb_false_r.
        reflexivity.
Qed.

Lemma success_log_shape
    (previousPost : Obj) (post : Response) (isAutosave : bool)
    (st : State) (c : nat) :
  ∃ tail,
    dispatched (REQUEST_POST_UPDATE_SUCCESS previousPost post isAutosave st c)
    = ((if (size (getPostEdits st) =? 0)%nat
        then [] else [Act_DIRTY_ARTIFICIALLY]) ++ tail)%list ∧
    (isAutosave = true → tail = []) ∧
    (tail = [] ∨
     ∃ message link,
       truthy message = true ∧
       tail = [createSuccessNotice
                 (ETag "p" [] [EVal message; EVal (VStr " "); link])
                 (mkNoticeOptions SAVE_POST_NOTICE_ID (Some message))]).
Proof.
  unfold REQUEST_POST_UPDATE_SUCCESS, when.
  destruct (size (getPostEdits st) =? 0)%nat, isAutosave;
    try (exists []; repeat split; auto; discriminate);
    destruct (includes _ (prop previousPost "status")),
             (includes _ (rprop post "status")); cbn -[truthy index];
    try (exists []; repeat split; auto; discriminate);
    match goal with
    | |- context [truthy ?m] => destruct (truthy m) eqn:Ht
    end; cbn;
    (eexists; split; [reflexivity |]; split; [discriminate |]);
    solve [left; reflexivity | right; do 2 eexists; split; [exact Ht | reflexivity]].
Qed.

(** After a save of either kind has gone through, the post is marked
    dirty exactly when edits are left in the state; an autosave
    dispatches that mark or nothing, a full save that mark and at most
    success notices. *)
Theorem dirty_marked_iff_edits_remain
    (previousPost : Obj) (post : Response) (isAutosave : bool)
    (st : State) (c : nat) :
  let log :=
    dispatched (REQUEST_POST_UPDATE_SUCCESS previousPost post isAutosave st c) in
  (Act_DIRTY_ARTIFICIALLY ∈ log ↔ getPostEdits st ≠ ∅) ∧
  (isAutosave = true →
   log = if decide (getPostEdits st = ∅) then [] else [Act_DIRTY_ARTIFICIALLY]) ∧
  (∀ a, a ∈ log → a = Act_DIRTY_ARTIFICIALLY ∨ is_success_notice a = true).
Proof.
  cbv zeta.
  destruct (success_log_shape previousPost post isAutosave st c)
    as (tail & -> & Hauto & Hshape).
  assert (Hnotices : ∀ a, a ∈ tail → is_success_notice a = true).
  { destruct Hshape as [-> | (message & link & _ & ->)]; intros a Hin.
    - apply elem_of_nil in Hin. contradiction.
    - apply list_elem_of_singleton in Hin as ->. reflexivity. }
  assert (Hsize : (size (getPostEdits st) =? 0)%nat = true
                  ↔ getPostEdits st = ∅).
  { rewrite Nat.eqb_eq. apply map_size_empty_iff. }
  destruct (size (getPostEdits st) =? 0)%nat.
  - assert (Hnone : getPostEdits st = ∅) by (apply Hsize; reflexivity).
    repeat split.
    + intros Hin. apply Hnotices in Hin. discriminate.
    + intros Hne. contradiction.
    + intros Hyes. rewrite (Hauto Hyes), decide_True by assumption.
      reflexivity.
    + intros a Hin. right. apply Hnotices, Hin.
  - assert (Hsome : getPostEdits st ≠ ∅).
    { intros Heq. apply Hsize in Heq. discriminate. }
    repeat split.
    + intros _. exact Hsome.
    + intros _. apply elem_of_cons; left; reflexivity.
    + intros Hyes. rewrite (Hauto Hyes), decide_False by assumption.
      reflexivity.
    + intros a Hin. cbn in Hin. apply elem_of_cons in Hin as [-> | Hin];
        [left; reflexivity | right; apply Hnotices, Hin].
Qed.

(** When the request of a trash intent is fulfilled, the post is reset
    to the post the state has at that moment, with the status 'trash'
    and every other property as it is; besides the removal of the
    standing trash notice nothing else is dispatched. *)
Theorem trash_success_resets_status
    (postId : JsVal) (answer : Response) (st0 st1 st2 : State) (c : nat) :
  ∃ trashed,
    dispatched (attempt (Act_TRASH_POST postId) st0 (Fulfilled answer)
                  st1 st2 c)
    = [removeNotice TRASH_POST_NOTICE_ID; resetPost (ROne trashed)] ∧
    trashed !! "status" = Some (VStr "trash") ∧
    ∀ k, k ≠ "status" → trashed !! k = getCurrentPost st1 !! k.
Proof.
  eexists. split; [reflexivity |]. split.
  - apply lookup_insert_eq.
  - intros k Hk. apply lookup_insert_ne. congruence.
Qed.

(** *** Merging *)

(** When the type of the first block merges but the second block has
    another type and does not transform into it (no result, or an empty
    one), the merge does nothing. *)
Theorem merge_aborts_without_transformation
    (first second : string) (st : State) (c : nat)
    (blockA blockB : Block) (blockType : BlockType)
    (mergeAttributes : Obj → Obj → Obj) :
  getBlock st first = Some blockA →
  getBlock st second = Some blockB →
  getBlockType (name blockA) = Some blockType →
  merge blockType = Some mergeAttributes →
  same_type_as blockA blockB = None ∨ same_type_as blockA blockB = Some [] →
  MERGE_BLOCKS first second st c = idle c.
Proof.
  intros HA HB Htype Hmerge Hsame. unfold same_type_as in Hsame.
  unfold MERGE_BLOCKS. rewrite HA, HB. cbn. rewrite Htype. cbn.
  rewrite Hmerge. cbn. destruct Hsame as [-> | ->]; reflexivity.
Qed.

(** Two blocks of one type that merges are replaced by exactly one
    block, and the merge function is given the attributes of the second
    block as they are: no transformation is asked for. *)
Theorem merge_of_same_type_gives_one_block
    (first second : string) (st : State) (c : nat)
    (blockA blockB : Block) (blockType : BlockType)
    (mergeAttributes : Obj → Obj → Obj) :
  getBlock st first = Some blockA →
  getBlock st second = Some blockB →
  getBlockType (name blockA) = Some blockType →
  merge blockType = Some mergeAttributes →
  name blockA = name blockB →
  ∃ merged,
    dispatched (MERGE_BLOCKS first second st c)
    = [selectBlock (clientId blockA) (Some (-1)%Z);
       replaceBlocks [clientId blockA; clientId blockB] [merged]] ∧
    attributes merged
    = spread (attributes blockA)
        (mergeAttributes (attributes blockA) (attributes blockB)).
Proof.
  intros HA HB Htype Hmerge Hname. eexists. split.
  - unfold MERGE_BLOCKS. rewrite HA, HB. cbn. rewrite Htype. cbn.
    rewrite Hmerge. cbn. rewrite Hname, String.eqb_refl. reflexivity.
  - reflexivity.
Qed.

(** *** Reusable blocks *)

(** Saving a reusable block dispatches nothing before the answer. A
    temporary block is created: POST to the collection, no id in the
    path or in the payload. A persisted block is updated: PUT to its own
    path, with its id in the payload. Either way the payload carries the
    title of the block. *)
Theorem save_reusable_creates_or_updates
    (id : JsVal) (st : State) (c : nat)
    (reusableBlock : ReusableBlock) (block : Block) :
  truthy (getPostTypeRoute (VStr "wp_block")) = true →
  getReusableBlock st id = Some reusableBlock →
  getBlock st (rb_clientId reusableBlock) = Some block →
  let collection := "/wp/v2/" ++ to_string (getPostTypeRoute (VStr "wp_block")) in
  ∃ p sent,
    SAVE_REUSABLE_BLOCK id st c = mkRun [] c (Some (mkOutcome [] (Some p))) ∧
    data (request p) = Some sent ∧
    sent !! "title" = Some (rb_title reusableBlock) ∧
    (rb_isTemporary reusableBlock = true →
     method (request p) = Some "POST" ∧ path (request p) = collection ∧
     sent !! "id" = None) ∧
    (rb_isTemporary reusableBlock = false →
     method (request p) = Some "PUT" ∧
     path (request p) = collection ++ "/" ++ to_string id ∧
     sent !! "id" = Some id).
Proof.
  intros Hroute Hentry Hblock. cbv zeta. unfold SAVE_REUSABLE_BLOCK.
  rewrite Hroute, Hentry. cbn. rewrite Hblock. cbn.
  destruct (rb_isTemporary reusableBlock); cbn;
    (do 2 eexists; split; [reflexivity |]); cbn;
    (split; [reflexivity |]); (split; [reflexivity |]);
    (split; intros [=]); repeat split.
Qed.

(** How the request of a saved reusable block ends: fulfilled, the
    success action carries the id the server has given, and the notice
    says 'Block created.' for a temporary block and 'Block updated.' for
    a persisted one; rejected with an error, the failure action is
    followed by an error notice with the message of the error. *)
Theorem save_reusable_outcome
    (id : JsVal) (st st1 : State) (c c1 : nat)
    (reusableBlock : ReusableBlock) (block : Block) :
  truthy (getPostTypeRoute (VStr "wp_block")) = true →
  getReusableBlock st id = Some reusableBlock →
  getBlock st (rb_clientId reusableBlock) = Some block →
  ∃ p, issued (SAVE_REUSABLE_BLOCK id st c) = Some p ∧
    (∀ answer,
       dispatched (settle p (Fulfilled answer) st1 c1)
       = [Act_SAVE_REUSABLE_BLOCK_SUCCESS (rprop answer "id") id;
          reusable_notice (if rb_isTemporary reusableBlock
                           then "Block created." else "Block updated.")]) ∧
    (∀ error,
       dispatched (settle p (Rejected (Some error)) st1 c1)
       = [Act_SAVE_REUSABLE_BLOCK_FAILURE id; reusable_error_notice error]).
Proof.
  intros Hroute Hentry Hblock. unfold issued, SAVE_REUSABLE_BLOCK.
  rewrite Hroute, Hentry. cbn. rewrite Hblock. cbn.
  eexists. split; [reflexivity |]. split.
  - intros answer. cbn. destruct (rb_isTemporary reusableBlock); reflexivity.
  - intros error. reflexivity.
Qed.

(** Saving a reusable block the state does not know, or one whose block
    the state does not know, throws before anything is dispatched or
    requested (where deleting one stops in silence). *)
Theorem save_reusable_unknown_throws (id : JsVal) (st : State) (c : nat) :
  truthy (getPostTypeRoute (VStr "wp_block")) = true →
  (getReusableBlock st id = None ∨
   ∃ reusableBlock, getReusableBlock st id = Some reusableBlock ∧
                    getBlock st (rb_clientId reusableBlock) = None) →
  SAVE_REUSABLE_BLOCK id st c = mkRun [] c None.
Proof.
  intros Hroute Hmissing. unfold SAVE_REUSABLE_BLOCK. rewrite Hroute.
  destruct Hmissing as [-> | (reusableBlock & -> & Hblock)]; cbn;
    [| rewrite Hblock]; reflexivity.
Qed.

(** Deleting a persisted reusable block asks for the removal of its own
    block and of every block in the list [getBlocks] gives that is a
    reusable block with this id as its reference, and of no other
    block. The list is filtered as it is: the inner blocks of its blocks
    are not looked into, so a reference held as an inner block is not
    asked to be removed. *)
Theorem delete_removes_block_and_references
    (id : JsVal) (st : State) (c : nat) (reusableBlock : ReusableBlock) :
  truthy (getPostTypeRoute (VStr "wp_block")) = true →
  getReusableBlock st id = Some reusableBlock →
  rb_isTemporary reusableBlock = false →
  ∀ removed,
    removed ∈ removed_ids (dispatched (DELETE_REUSABLE_BLOCK id st c)) ↔
    removed = rb_clientId reusableBlock ∨
    ∃ block, block ∈ getBlocks st ∧ isReusableBlock block = true ∧
             prop (attributes block) "ref" = id ∧ clientId block = removed.
Proof.
  intros Hroute Hentry Hpersisted removed. unfold DELETE_REUSABLE_BLOCK.
  rewrite Hroute, Hentry, Hpersisted. cbn.
  rewrite app_nil_r, elem_of_app, list_elem_of_singleton, list_elem_of_fmap.
  split.
  - intros [(block & -> & Hin) | ->]; [right | left; reflexivity].
    apply list_elem_of_In, List.filter_In in Hin as [Hin Hkeep].
    apply andb_true_iff in Hkeep as [Hreusable Href].
    apply bool_decide_eq_true in Href.
    exists block. repeat split; [apply list_elem_of_In, Hin | assumption ..].
  - intros [-> | (block & Hin & Hreusable & Href & <-)];
      [right; reflexivity | left].
    exists block. split; [reflexivity |].
    apply list_elem_of_In, List.filter_In. split; [apply list_elem_of_In, Hin |].
    rewrite Hreusable. unfold strict_eq. rewrite bool_decide_eq_true_2; auto.
Qed.

(** Deleting a persisted reusable block draws one identifier, begins a
    transaction of its own under it and resolves that transaction once:
    as COMMIT, with the notice 'Block deleted.', when the request is
    fulfilled, and as REVERT, with the message of the error as notice,
    when it is rejected with an error. *)
Theorem delete_transaction_discipline
    (id : JsVal) (st0 st1 st2 : State) (s : Settlement) (c : nat)
    (reusableBlock : ReusableBlock) :
  truthy (getPostTypeRoute (VStr "wp_block")) = true →
  getReusableBlock st0 id = Some reusableBlock →
  rb_isTemporary reusableBlock = false →
  let run := attempt (Act_DELETE_REUSABLE_BLOCK id) st0 s st1 st2 c in
  let transactionId := pretty (S c) in
  idCounter run = S c ∧
  (∀ answer, s = Fulfilled answer →
     phases transactionId (dispatched run) = [BEGIN; COMMIT] ∧
     notices (dispatched run) = [reusable_notice "Block deleted."]) ∧
  (∀ error, s = Rejected error →
     phases transactionId (dispatched run) = [BEGIN; REVERT] ∧
     notices (dispatched run)
     = match error with
       | Some error => [reusable_error_notice error]
       | None => []
       end).
Proof.
  intros Hroute Hentry Hpersisted. cbv zeta. unfold attempt. cbn [effects].
  unfold DELETE_REUSABLE_BLOCK. rewrite Hroute, Hentry, Hpersisted.
  destruct s as [answer | [error |]]; cbn; rewrite String.eqb_refl;
    (split; [reflexivity |]); split; intros ? [=]; subst;
    split; reflexivity.
Qed.

(** Fetching reusable blocks dispatches nothing before the answer and
    never a notice. Fulfilled, it registers one pair for every resource
    of the answer, in order, a single resource counting as a list of
    one, each with the first block its content parses to; the blocks
    that [RECEIVE_REUSABLE_BLOCKS] then hands on are these first blocks.
    Rejected, it dispatches the failure action alone. *)
Theorem fetch_registers_each_resource
    (id : JsVal) (st st1 : State) (c c1 : nat) :
  truthy (getPostTypeRoute (VStr "wp_block")) = true →
  let first_block (resource : Obj) := head (parse (prop resource "content")) in
  ∃ p,
    FETCH_REUSABLE_BLOCKS id st c = mkRun [] c (Some (mkOutcome [] (Some p))) ∧
    (∀ answer, ∃ results,
       dispatched (settle p (Fulfilled answer) st1 c1)
       = [receiveReusableBlocks results; Act_FETCH_REUSABLE_BLOCKS_SUCCESS id] ∧
       map fst results = castArray answer ∧
       RECEIVE_REUSABLE_BLOCKS results
       = [receiveBlocks (map first_block (castArray answer))]) ∧
    (∀ error,
       dispatched (settle p (Rejected error) st1 c1)
       = [Act_FETCH_REUSABLE_BLOCKS_FAILURE id error]).
Proof.
  intros Hroute. cbv zeta. unfold FETCH_REUSABLE_BLOCKS. rewrite Hroute. cbn.
  eexists. split; [reflexivity |]. split.
  - intros answer. eexists. split; [reflexivity |].
    unfold RECEIVE_REUSABLE_BLOCKS. rewrite !map_map. cbn.
    split; [apply map_id | reflexivity].
  - intros error. reflexivity.
Qed.

(** *** Refreshing the post *)

(** A refresh is no transaction and is not optimistic: it dispatches
    nothing before the answer and reads the post with the edit context
    (no method is set, so the request is a read). Fulfilled, it resets
    the post from the answer and does nothing else; rejected, it
    dispatches nothing, not even a notice. *)
Theorem refresh_only_resets
    (st st1 : State) (s : Settlement) (c c1 : nat) :
  ∃ p,
    REFRESH_POST st c = mkRun [] c (Some (mkOutcome [] (Some p))) ∧
    method (request p) = None ∧
    (data (request p) ≫= λ sent : Obj, sent !! "context") = Some (VStr "edit") ∧
    dispatched (settle p s st1 c1)
    = match s with
      | Fulfilled answer => [resetPost answer]
      | Rejected _ => []
      end.
Proof.
  eexists. split; [reflexivity |]. repeat split.
  destruct s; reflexivity.
Qed.

(** *** Templates *)

(** Setting the editor up throws exactly when the post has no content
    object, or has the status 'auto-draft' and no title object. *)
Theorem setup_fails_iff (post : Post) (autosave : option Obj) (st : State) :
  SETUP_EDITOR post autosave st = None ↔
  post_content post = None ∨
  (prop (post_fields post) "status" = VStr "auto-draft" ∧
   post_title post = None).
Proof.
  unfold SETUP_EDITOR, strict_eq.
  destruct (post_content post) as [content |]; cbn; [| tauto].
  destruct (if truthy (prop content "raw") then _ else _) as [blocks valid].
  case_bool_decide as Hstatus.
  - destruct (post_title post); cbn; split;
      [discriminate | intros [[=] | [_ [=]]] | tauto | reflexivity].
  - cbn. split; [discriminate | intros [[=] | [Hauto _]]; contradiction].
Qed.

(** The template is declared invalid at setup only when the post has raw
    content, a template is set, its lock is 'all' and the blocks parsed
    from the content do not match it; a post without raw content is
    always declared valid. The validity comes first in what is
    returned, the state of the editor second. *)
Theorem setup_validity (post : Post) (autosave : option Obj) (st : State)
    (actions : list EditorAction) (content : Obj) :
  SETUP_EDITOR post autosave st = Some actions →
  post_content post = Some content →
  ∃ valid blocks edits rest,
    actions = setTemplateValidity valid :: setupEditorState post blocks edits
              :: rest ∧
    (valid = false ↔
     truthy (prop content "raw") = true ∧
     ∃ template, getTemplate st = Some template ∧
       getTemplateLock st = VStr "all" ∧
       doBlocksMatchTemplate (parse (prop content "raw")) template = false).
Proof.
  unfold SETUP_EDITOR. intros Hsetup Hcontent. rewrite Hcontent in Hsetup.
  cbn in Hsetup.
  destruct (truthy (prop content "raw")) eqn:Hraw.
  - match type of Hsetup with
    | (?o ≫= _) = _ => destruct o as [edits |]; [| discriminate]
    end.
    cbn in Hsetup. injection Hsetup as <-.
    do 4 eexists. split; [reflexivity |].
    unfold template_valid, strict_eq.
    destruct (getTemplate st) as [template |].
    + case_bool_decide as Hlock; cbn.
      * split.
        -- intros Hmatch. split; [reflexivity |]. exists template. auto.
        -- intros (_ & template' & [= <-] & _ & Hmatch). exact Hmatch.
      * split; [discriminate |].
        intros (_ & template' & _ & Hall & _). contradiction.
    + split; [discriminate | intros (_ & template & [=] & _)].
  - assert (Hshape : ∃ blocks edits rest,
      actions = setTemplateValidity true :: setupEditorState post blocks edits
                :: rest).
    { match type of Hsetup with
      | (let '(_, _) := ?choice in _) = _ => destruct choice as [blocks valid] eqn:Hchoice
      end.
      assert (valid = true) as ->
        by (repeat case_match; congruence).
      match type of Hsetup with
      | (?o ≫= _) = _ => destruct o as [edits |]; [| discriminate]
      end.
      cbn in Hsetup. injection Hsetup as <-. do 3 eexists. reflexivity. }
    destruct Hshape as (blocks & edits & rest & ->).
    exists true, blocks, edits, rest. split; [reflexivity |].
    split; [discriminate | intros [[=] _]].
Qed.

(** When the blocks of the state are the blocks the raw content of the
    post parses to, checking the template gives the validity that the
    setup has declared. *)
Theorem check_agrees_with_setup (post : Post) (autosave : option Obj)
    (st : State) (actions : list EditorAction) (content : Obj) :
  SETUP_EDITOR post autosave st = Some actions →
  post_content post = Some content →
  truthy (prop content "raw") = true →
  getBlocks st = parse (prop content "raw") →
  head actions = head (CHECK_TEMPLATE_VALIDITY st).
Proof.
  unfold SETUP_EDITOR, CHECK_TEMPLATE_VALIDITY.
  intros Hsetup Hcontent Hraw Hblocks. rewrite Hcontent in Hsetup.
  cbn in Hsetup. rewrite Hraw in Hsetup.
  match type of Hsetup with
  | (?o ≫= _) = _ => destruct o as [edits |]; [| discriminate]
  end.
  cbn in Hsetup. injection Hsetup as <-. rewrite Hblocks. reflexivity.
Qed.

(** Editing the post inserts a block only into a document without
    blocks, and only the default block of a format that has one, when
    the edit sets a format; in every other case it returns nothing. *)
Theorem edit_post_inserts_into_empty_document (format : JsVal) (st : State) :
  (∀ blockName,
     truthy format = true →
     getDefaultBlockForPostFormat format = Some blockName →
     blockName ≠ "" → getBlockCount st = 0%nat →
     EDIT_POST format st = [insertBlock (createBlock blockName ∅ [])]) ∧
  (truthy format = false ∨
   truthy_id (getDefaultBlockForPostFormat format) = false ∨
   getBlockCount st ≠ 0%nat →
   EDIT_POST format st = []).
Proof.
  unfold EDIT_POST. split.
  - intros blockName -> -> Hname ->.
    rewrite truthy_id_Some by assumption. reflexivity.
  - intros [-> | [Hnone | Hcount]]; [reflexivity | |];
      destruct (truthy format); cbn; try reflexivity;
      destruct (getDefaultBlockForPostFormat format) as [blockName |];
      try reflexivity.
    + rewrite Hnone. reflexivity.
    + apply Nat.eqb_neq in Hcount. rewrite Hcount, andb_false_r. reflexivity.
Qed.

(** *** Notices *)

(** The success notices of a save are written as elements, with a
    paragraph and a link, but what is handed to the speech of the
    browser for them is always a plain value, the message itself. *)
Theorem save_notice_is_spoken_plainly
    (previousPost : Obj) (post : Response) (isAutosave : bool)
    (st : State) (c : nat) (content : Element) (options : NoticeOptions) :
  createSuccessNotice content options
  ∈ dispatched (REQUEST_POST_UPDATE_SUCCESS previousPost post isAutosave st c) →
  ∃ message children,
    content = ETag "p" [] (EVal message :: children) ∧
    CREATE_NOTICE content (spokenMessage options) = EVal message.
Proof.
  destruct (success_log_shape previousPost post isAutosave st c)
    as (tail & -> & _ & Hshape).
  intros Hin. apply elem_of_app in Hin as [Hin | Hin].
  { destruct (size (getPostEdits st) =? 0)%nat.
    - apply elem_of_nil in Hin. contradiction.
    - apply list_elem_of_singleton in Hin. discriminate. }
  destruct Hshape as [-> | (message & link & Htruthy & ->)].
  { apply elem_of_nil in Hin. contradiction. }
  apply list_elem_of_singleton in Hin. injection Hin as -> ->.
  exists message, [EVal (VStr " "); link]. split; [reflexivity |].
  unfold CREATE_NOTICE. cbn. rewrite Htruthy. reflexivity.
Qed.

(** *** Conversions *)

(** Turning a block into a reusable block draws one identifier and uses
    it throughout: the entry that is registered for the block, the save
    that is asked for and the reference of the block that replaces the
    original all carry it; the original block is registered again last.
    Two conversions never draw the same identifier. *)
Theorem convert_to_reusable_uses_one_id
    (converted : string) (st : State) (c : nat) (block : Block) :
  getBlock st converted = Some block →
  let id := VStr ("reusable" ++ pretty (S c)) in
  ∃ entry attrs,
    CONVERT_BLOCK_TO_REUSABLE converted st c
    = (Some [Plain (receiveReusableBlocks [(entry, Some block)]);
             Editor (saveReusableBlock id);
             Editor (replaceBlock (clientId block)
                       (createBlock "core/block" attrs []));
             Editor (receiveBlocks [Some block])],
       S c) ∧
    entry !! "id" = Some id ∧
    entry !! "clientId" = Some (VStr (clientId block)) ∧
    attrs !! "ref" = Some id ∧
    attrs !! "layout" = Some (prop (attributes block) "layout") ∧
    ∀ c', c' ≠ c → VStr ("reusable" ++ pretty (S c')) ≠ id.
Proof.
  intros Hblock. cbv zeta. unfold CONVERT_BLOCK_TO_REUSABLE. rewrite Hblock.
  cbn -[pretty]. do 2 eexists. split; [reflexivity |].
  repeat split.
  intros c' Hne [= Heq]. apply Hne.
  apply (inj S), (inj pretty), Heq.
Qed.

(** Turning a reference into a static block throws exactly when the
    state does not know the block, the reusable block it refers to, or
    the block of that reusable block. Otherwise its one dispatch
    replaces the reference by a block made of the name and the
    attributes of the referenced block, without inner blocks. *)
Theorem convert_to_static_copies_referenced
    (converted : string) (st : State) :
  (CONVERT_BLOCK_TO_STATIC converted st = None ↔
   ¬ ∃ oldBlock reusableBlock referencedBlock,
       getBlock st converted = Some oldBlock ∧
       getReusableBlock st (prop (attributes oldBlock) "ref")
       = Some reusableBlock ∧
       getBlock st (rb_clientId reusableBlock) = Some referencedBlock) ∧
  (∀ oldBlock reusableBlock referencedBlock,
     getBlock st converted = Some oldBlock →
     getReusableBlock st (prop (attributes oldBlock) "ref")
     = Some reusableBlock →
     getBlock st (rb_clientId reusableBlock) = Some referencedBlock →
     CONVERT_BLOCK_TO_STATIC converted st
     = Some [Editor (replaceBlock (clientId oldBlock)
                       (createBlock (name referencedBlock)
                          (attributes referencedBlock) []))]).
Proof.
  unfold CONVERT_BLOCK_TO_STATIC. split.
  - destruct (getBlock st converted) as [oldBlock |] eqn:Hold; cbn.
    2: { split; [intros _ (? & ? & ? & [=] & _) | reflexivity]. }
    destruct (getReusableBlock st _) as [reusableBlock |] eqn:Hentry; cbn.
    2: { split; [intros _ (? & ? & ? & [= <-] & Hsome & _) | reflexivity].
         congruence. }
    destruct (getBlock st (rb_clientId reusableBlock))
      as [referencedBlock |] eqn:Href; cbn.
    + split; [discriminate | intros Hnot]. exfalso. apply Hnot.
      exists oldBlock, reusableBlock, referencedBlock. auto.
    + split; [| reflexivity].
      intros _ (? & ? & ? & [= <-] & Hsome & Hblock).
      rewrite Hentry in Hsome. injection Hsome as <-. congruence.
  - intros oldBlock reusableBlock referencedBlock -> Hentry Href. cbn.
    rewrite Hentry. cbn. rewrite Href. reflexivity.
Qed.

End MoreProperties.

(** ** The further statements on the sample stores *)

Import Studio.

(** A store that cannot be saved dispatches nothing; the autosave of
    the shelf, once refused, has begun and reverted its transaction. *)
Lemma save_transaction_discipline_witness :
  dispatched (attempt (Act_REQUEST_POST_UPDATE saving) locked
                (Fulfilled published) locked locked 0%nat) = [] ∧
  phases "post-update"
    (dispatched (attempt (Act_REQUEST_POST_UPDATE autosaving) shelf
                   (Rejected (Some refused)) shelf shelf 0%nat))
  = [BEGIN; REVERT].
Proof.
  split.
  - apply (@save_transaction_discipline Store selectors services
             saving locked locked locked (Fulfilled published) 0%nat).
    reflexivity.
  - destruct (@save_transaction_discipline Store selectors services
                autosaving shelf shelf shelf (Rejected (Some refused)) 0%nat)
      as [_ Hopen].
    destruct (Hopen ltac:(reflexivity)) as (resolution & Hphases & _ & Hrevert).
    rewrite (Hrevert (Some refused) eq_refl) in Hphases. exact Hphases.
Defined.

(** The edits of the shelf hold a stale content; the content of the
    editor is what is sent. *)
Lemma save_payload_identity_witness :
  ∃ toSend, payload (REQUEST_POST_UPDATE saving shelf 0%nat) = Some toSend ∧
    getPostEdits shelf !! "content" = Some (VStr "stale") ∧
    toSend !! "content" = Some (VStr "<p>foo</p><p>bar</p>") ∧
    toSend !! "id" = Some (VNum 5).
Proof.
  destruct (@save_payload_identity Store selectors services saving shelf 0%nat
              ltac:(reflexivity))
    as (toSend & Hpayload & Hcontent & Hid & _).
  exists toSend. repeat split; assumption.
Defined.

(** The autosave of the shelf sends the title of the edits and, as no
    excerpt is edited, the excerpt of the stored autosave. *)
Lemma autosave_backfill_witness :
  (∃ toSend, payload (REQUEST_POST_UPDATE autosaving shelf 0%nat) = Some toSend ∧
     toSend !! "title" = Some (VStr "New title")) ∧
  (∃ toSend, payload (REQUEST_POST_UPDATE autosaving shelf 0%nat) = Some toSend ∧
     toSend !! "excerpt" = Some (VStr "Stored excerpt")).
Proof.
  split.
  - destruct (@autosave_backfill Store selectors services autosaving shelf
                0%nat "title" ltac:(reflexivity) ltac:(reflexivity)
                ltac:(left; reflexivity))
      as (toSend & Hpayload & Hedited & _).
    exists toSend. split; [assumption |]. apply Hedited. reflexivity.
  - destruct (@autosave_backfill Store selectors services autosaving shelf
                0%nat "excerpt" ltac:(reflexivity) ltac:(reflexivity)
                ltac:(right; reflexivity))
      as (toSend & Hpayload & _ & Hstored & _).
    exists toSend. split; [assumption |]. apply Hstored; reflexivity.
Defined.

Lemma optimistic_update_is_sent_witness :
  ∃ applied sent,
    optimistic_payload (dispatched (REQUEST_POST_UPDATE autosaving shelf 0%nat))
    = Some applied ∧
    payload (REQUEST_POST_UPDATE autosaving shelf 0%nat) = Some sent ∧
    applied ⊆ sent.
Proof.
  destruct (@optimistic_update_is_sent Store selectors services autosaving
              shelf 0%nat ltac:(reflexivity))
    as (applied & sent & Happlied & Hsent & Hsub & _).
  exists applied, sent. auto.
Defined.

(** A draft that could not be scheduled. *)
Lemma full_save_failure_notice_witness :
  dispatched (REQUEST_POST_UPDATE_FAILURE (currentPost draft)
                {[ "status" := VStr "future" ]} (Some refused) draft 0%nat)
  = [failed_notice "Scheduling failed"].
Proof.
  destruct (@full_save_failure_notice Store services (currentPost draft)
              {[ "status" := VStr "future" ]} (Some refused) draft 0%nat)
    as [_ Hfailed].
  apply Hfailed.
  - intros (e & [= <-] & Hcode). discriminate.
  - unfold published_family. cbn. intuition discriminate.
  - reflexivity.
Defined.

Lemma dirty_marked_iff_edits_remain_witness :
  Act_DIRTY_ARTIFICIALLY
  ∈ dispatched (REQUEST_POST_UPDATE_SUCCESS (currentPost shelf) revision true
                  shelf 0%nat).
Proof.
  apply (@dirty_marked_iff_edits_remain Store selectors services
           (currentPost shelf) revision true shelf 0%nat).
  intros Hempty.
  apply (f_equal (λ m : Obj, m !! "title")) in Hempty. discriminate.
Defined.

(** The post is trashed as the state has it when the answer comes. *)
Lemma trash_success_resets_status_witness :
  ∃ trashed,
    dispatched (attempt (Act_TRASH_POST (VNum 5)) draft (Fulfilled published)
                  shelf shelf 0%nat)
    = [removeNotice TRASH_POST_NOTICE_ID; resetPost (ROne trashed)] ∧
    trashed !! "status" = Some (VStr "trash") ∧
    trashed !! "title" = Some (VStr "Old title").
Proof.
  destruct (@trash_success_resets_status Store selectors services (VNum 5)
              published draft shelf shelf 0%nat)
    as (trashed & Hlog & Hstatus & Hrest).
  exists trashed. split; [assumption |]. split; [assumption |].
  rewrite Hrest by discriminate. reflexivity.
Defined.

(** An image does not turn into a paragraph. *)
Lemma merge_aborts_without_transformation_witness :
  MERGE_BLOCKS "p1" "i1" shelf 0%nat = idle 0%nat.
Proof.
  apply (@merge_aborts_without_transformation Store selectors services
           "p1" "i1" shelf 0%nat (paragraph "p1" "foo") (image "i1")
           (mkBlockType (Some joinContent)) joinContent);
    try reflexivity.
  left. reflexivity.
Defined.

Lemma merge_of_same_type_gives_one_block_witness :
  ∃ merged,
    dispatched (MERGE_BLOCKS "p1" "p2" shelf 0%nat)
    = [selectBlock "p1" (Some (-1)%Z); replaceBlocks ["p1"; "p2"] [merged]] ∧
    attributes merged !! "content" = Some (VStr "foobar").
Proof.
  destruct (@merge_of_same_type_gives_one_block Store selectors services
              "p1" "p2" shelf 0%nat (paragraph "p1" "foo") (paragraph "p2" "bar")
              (mkBlockType (Some joinContent)) joinContent
              ltac:(reflexivity) ltac:(reflexivity) ltac:(reflexivity)
              ltac:(reflexivity) ltac:(reflexivity))
    as (merged & Hlog & Hattrs).
  exists merged. split; [assumption |]. rewrite Hattrs. reflexivity.
Defined.

(** The temporary block "reusable1" is created, not updated. *)
Lemma save_reusable_creates_or_updates_witness :
  ∃ p, issued (SAVE_REUSABLE_BLOCK (VStr "reusable1") shelf 0%nat) = Some p ∧
    method (request p) = Some "POST" ∧
    path (request p) = "/wp/v2/blocks".
Proof.
  destruct (@save_reusable_creates_or_updates Store selectors services
              (VStr "reusable1") shelf 0%nat
              (mkReusableBlock "p2" (VStr "Untitled") true)
              (paragraph "p2" "bar")
              ltac:(reflexivity) ltac:(reflexivity) ltac:(reflexivity))
    as (p & sent & Hrun & _ & _ & Hcreate & _).
  exists p. unfold issued. rewrite Hrun.
  destruct (Hcreate ltac:(reflexivity)) as (Hmethod & Hpath & _).
  split; [reflexivity |]. split; assumption.
Defined.

Lemma save_reusable_outcome_witness :
  ∃ p, issued (SAVE_REUSABLE_BLOCK (VNum 7) shelf 0%nat) = Some p ∧
    dispatched (settle p (Rejected (Some refused)) shelf 0%nat)
    = [Act_SAVE_REUSABLE_BLOCK_FAILURE (VNum 7);
       reusable_error_notice refused].
Proof.
  destruct (@save_reusable_outcome Store selectors services
              (VNum 7) shelf shelf 0%nat 0%nat
              (mkReusableBlock "p1" (VStr "Greeting") false)
              (paragraph "p1" "foo")
              ltac:(reflexivity) ltac:(reflexivity) ltac:(reflexivity))
    as (p & Hissued & _ & Hrejected).
  exists p. split; [assumption | apply Hrejected].
Defined.

(** The block of the reusable block 9 is not in the tree. *)
Lemma save_reusable_unknown_throws_witness :
  SAVE_REUSABLE_BLOCK (VNum 9) shelf 4%nat = mkRun [] 4%nat None.
Proof.
  apply (@save_reusable_unknown_throws Store selectors services
           (VNum 9) shelf 4%nat); [reflexivity |].
  right. exists (mkReusableBlock "gone" (VStr "Lost") false).
  split; reflexivity.
Defined.

(** Deleting the reusable block 7 removes its block "p1" and the
    references "r1" and "r3", and leaves the reference "r2" to 8; in
    the nested tree it removes the reference "top" and leaves the
    reference "deep" that "top" holds as inner block. *)
Lemma delete_removes_block_and_references_witness :
  ("r3" ∈ removed_ids (dispatched (DELETE_REUSABLE_BLOCK (VNum 7) shelf 0%nat))) ∧
  ("r2" ∉ removed_ids (dispatched (DELETE_REUSABLE_BLOCK (VNum 7) shelf 0%nat))) ∧
  ("top" ∈ removed_ids (dispatched (DELETE_REUSABLE_BLOCK (VNum 7) nested 0%nat))) ∧
  ("deep" ∉ removed_ids (dispatched (DELETE_REUSABLE_BLOCK (VNum 7) nested 0%nat))).
Proof.
  pose proof (@delete_removes_block_and_references Store selectors services
                (VNum 7) shelf 0%nat
                (mkReusableBlock "p1" (VStr "Greeting") false)
                ltac:(reflexivity) ltac:(reflexivity) ltac:(reflexivity))
    as Hremoved.
  pose proof (@delete_removes_block_and_references Store selectors services
                (VNum 7) nested 0%nat
                (mkReusableBlock "p1" (VStr "Greeting") false)
                ltac:(reflexivity) ltac:(reflexivity) ltac:(reflexivity))
    as Hnested.
  split; [| split; [| split]].
  - apply Hremoved. right. exists (reference "r3" (VNum 7)).
    repeat split. cbn. rewrite !elem_of_cons. tauto.
  - intros Hin. apply Hremoved in Hin
      as [[=] | (block & Hblock & _ & Href & Hid)].
    cbn in Hblock. rewrite !elem_of_cons, elem_of_nil in Hblock.
    destruct Hblock as [-> | [-> | [-> | [-> | [-> | [-> | []]]]]]];
      discriminate.
  - apply Hnested. right.
    exists (mkBlock "top" "core/block" {[ "ref" := VNum 7 ]}
              [reference "deep" (VNum 7)]).
    repeat split. cbn. rewrite !elem_of_cons. tauto.
  - intros Hin. apply Hnested in Hin
      as [[=] | (block & Hblock & _ & Href & Hid)].
    cbn in Hblock. rewrite !elem_of_cons, elem_of_nil in Hblock.
    destruct Hblock as [-> | [-> | []]]; discriminate.
Defined.

Lemma delete_transaction_discipline_witness :
  phases "3"
    (dispatched (attempt (Act_DELETE_REUSABLE_BLOCK (VNum 7)) shelf
                   (Rejected (Some refused)) shelf shelf 2%nat))
  = [BEGIN; REVERT].
Proof.
  destruct (@delete_transaction_discipline Store selectors services
              (VNum 7) shelf shelf shelf (Rejected (Some refused)) 2%nat
              (mkReusableBlock "p1" (VStr "Greeting") false)
              ltac:(reflexivity) ltac:(reflexivity) ltac:(reflexivity))
    as (_ & _ & Hrejected).
  destruct (Hrejected (Some refused) ltac:(reflexivity)) as [Hphases _].
  exact Hphases.
Defined.

Lemma fetch_registers_each_resource_witness :
  ∃ p, issued (FETCH_REUSABLE_BLOCKS VUndef shelf 0%nat) = Some p ∧
    dispatched (settle p (Rejected None) shelf 0%nat)
    = [Act_FETCH_REUSABLE_BLOCKS_FAILURE VUndef None].
Proof.
  destruct (@fetch_registers_each_resource Store services
              VUndef shelf shelf 0%nat 0%nat ltac:(reflexivity))
    as (p & Hrun & _ & Hrejected).
  exists p. unfold issued. rewrite Hrun. split; [reflexivity | apply Hrejected].
Defined.

Lemma refresh_only_resets_witness :
  ∃ p, issued (REFRESH_POST shelf 0%nat) = Some p ∧
    dispatched (settle p (Fulfilled published) shelf 0%nat)
    = [resetPost published].
Proof.
  destruct (@refresh_only_resets Store selectors services
              shelf shelf (Fulfilled published) 0%nat 0%nat)
    as (p & Hrun & _ & _ & Hsettled).
  exists p. unfold issued. rewrite Hrun. split; [reflexivity | exact Hsettled].
Defined.

(** A post that comes without its content object cannot be set up. *)
Lemma setup_fails_iff_witness :
  SETUP_EDITOR (mkPost ∅ None None) None blank = None.
Proof.
  apply (@setup_fails_iff Desk (list string) services desk_templates
           (mkPost ∅ None None) None blank).
  left. reflexivity.
Defined.

(** The raw content of the written post parses to no block, which the
    locked template of one paragraph does not accept. *)
Lemma setup_validity_witness :
  ∃ blocks edits rest,
    SETUP_EDITOR written None blank
    = Some (setTemplateValidity false :: setupEditorState written blocks edits
            :: rest).
Proof.
  destruct (SETUP_EDITOR written None blank) as [actions |] eqn:Hsetup;
    [| discriminate].
  destruct (@setup_validity Desk (list string) services desk_templates
              written None blank actions {[ "raw" := VStr "<p>hi</p>" ]}
              Hsetup ltac:(reflexivity))
    as (valid & blocks & edits & rest & -> & Hvalid).
  assert (valid = false) as ->.
  { apply Hvalid. split; [reflexivity |].
    exists ["core/paragraph"]. repeat split. }
  exists blocks, edits, rest. reflexivity.
Defined.

Lemma check_agrees_with_setup_witness :
  head <$> SETUP_EDITOR written None blank
  = Some (head (CHECK_TEMPLATE_VALIDITY blank)).
Proof.
  destruct (SETUP_EDITOR written None blank) as [actions |] eqn:Hsetup;
    [| discriminate].
  cbn [fmap option_fmap option_map]. f_equal.
  apply (@check_agrees_with_setup Desk (list string) desk_selectors services
           desk_templates written None blank actions
           {[ "raw" := VStr "<p>hi</p>" ]} Hsetup);
    reflexivity.
Defined.

(** Choosing the quote format in an empty document inserts a quote. *)
Lemma edit_post_inserts_into_empty_document_witness :
  EDIT_POST (VStr "quote") blank = [insertBlock (createBlock "core/quote" ∅ [])].
Proof.
  destruct (@edit_post_inserts_into_empty_document Desk (list string) services
              desk_templates (VStr "quote") blank) as [Hinsert _].
  apply Hinsert; [reflexivity | reflexivity | discriminate | reflexivity].
Defined.

Lemma save_notice_is_spoken_plainly_witness :
  CREATE_NOTICE
    (ETag "p" [] [EVal (VStr "Post published!"); EVal (VStr " ");
                  view_link published])
    (Some (VStr "Post published!"))
  = EVal (VStr "Post published!").
Proof.
  destruct (@save_notice_is_spoken_plainly Store selectors services
              (currentPost draft) published false draft 0%nat
              (ETag "p" [] [EVal (VStr "Post published!"); EVal (VStr " ");
                            view_link published])
              (mkNoticeOptions SAVE_POST_NOTICE_ID
                 (Some (VStr "Post published!"))))
    as (message & children & Hcontent & Hspoken).
  - vm_compute. apply elem_of_cons. right. apply elem_of_cons. left.
    reflexivity.
  - injection Hcontent as <- _. exact Hspoken.
Defined.

Lemma convert_to_reusable_uses_one_id_witness :
  ∃ emitted,
    CONVERT_BLOCK_TO_REUSABLE "p2" shelf 1%nat = (Some emitted, 2%nat) ∧
    emitted !! 1%nat = Some (Editor (saveReusableBlock (VStr "reusable2"))).
Proof.
  destruct (@convert_to_reusable_uses_one_id Store selectors services
              "p2" shelf 1%nat (paragraph "p2" "bar") ltac:(reflexivity))
    as (entry & attrs & Hrun & _).
  eexists. split; [exact Hrun | reflexivity].
Defined.

(** The reference "r1" becomes a copy of the paragraph "p1". *)
Lemma convert_to_static_copies_referenced_witness :
  CONVERT_BLOCK_TO_STATIC "r1" shelf
  = Some [Editor (replaceBlock "r1"
                    (createBlock "core/paragraph"
                       {[ "content" := VStr "foo" ]} []))].
Proof.
  destruct (@convert_to_static_copies_referenced Store selectors services
              "r1" shelf) as [_ Hcopy].
  apply (Hcopy (reference "r1" (VNum 7))
               (mkReusableBlock "p1" (VStr "Greeting") false)
               (paragraph "p1" "foo")); reflexivity.
Defined.
